(** * rootpy/datasets.py: the sample resolver [get_sample]

    A shallow embedding of [src/rootpy/datasets.py] (Python 2) and the
    properties of its resolver.  Text is ASCII, as the vocabulary tables
    and the naming grammars are; Python's [print] lines are collected in a
    log; the file system, the XML reader, the part of [eval] outside
    numeric arithmetic and the order in which the interpreter lists the
    keys of a dictionary are inputs of the model, gathered in [world]. *)

From Stdlib Require Import ZArith String Ascii List Bool Lia QArith.
From Stdlib Require Import Floats.SpecFloat.
From stdpp Require Import gmap strings list.

Set Warnings "-register-all".
Local Open Scope string_scope.
Local Open Scope Z_scope.

(** ** Characters and text *)

Definition chars := list ascii.

Definition nl : ascii := "010"%char.

Definition code (c : ascii) : nat := nat_of_ascii c.

Definition in_range (lo hi c : ascii) : bool :=
  ((code lo <=? code c) && (code c <=? code hi))%nat.

Definition is_digit (c : ascii) : bool := in_range "0" "9" c.

(** [str.upper] on ASCII text. *)
Definition upper_char (c : ascii) : ascii :=
  if in_range "a" "z" c then ascii_of_nat (code c - 32) else c.

Fixpoint upper (s : string) : string :=
  match s with
  | EmptyString => EmptyString
  | String c t => String (upper_char c) (upper t)
  end.

(** [int(s)] on a string of decimal digits (leading zeros allowed). *)
Definition digit_val (c : ascii) : Z := Z.of_nat (code c - 48).

Definition int_of_digits (s : chars) : Z :=
  fold_left (fun acc c => 10 * acc + digit_val c) s 0.

Definition py_int (s : string) : Z := int_of_digits (list_ascii_of_string s).

(** [needle in s] / the text matched by [*needle*]. *)
Fixpoint starts_with (p s : chars) : bool :=
  match p, s with
  | [], _ => true
  | a :: p', b :: s' => Ascii.eqb a b && starts_with p' s'
  | _ :: _, [] => false
  end.

Fixpoint contains (needle s : chars) : bool :=
  starts_with needle s ||
  match s with
  | [] => false
  | _ :: t => contains needle t
  end.

(** ** Python's [re], on the constructs the two patterns use

    A pattern is kept as its syntax tree.  [run] is the backtracking
    matcher as a list of successes, in the order the engine tries them:
    greedy repetition tries the longest run first, an optional group is
    tried before it is skipped, alternatives left to right.  [re.match]
    returns the first success. *)

Module Re.

(** One-character matchers: a literal, [.], and [[...]] / [[^...]]
    given by its ranges. *)
Inductive atom :=
| Chr (c : ascii)
| Dot
| Cls (negated : bool) (ranges : list (ascii * ascii)).

Inductive re :=
| Eps
| Atom (a : atom)
| Plus (a : atom)               (* a+ , greedy *)
| Seq (r1 r2 : re)
| Alt (r1 r2 : re)
| Opt (r : re)                  (* (?:r)? , greedy *)
| Group (name : string) (r : re)  (* (?P<name>r) *)
| Bol                           (* ^ *)
| Eol.                          (* $ *)

Definition atom_ok (a : atom) (c : ascii) : bool :=
  match a with
  | Chr d => Ascii.eqb d c
  | Dot => negb (Ascii.eqb c nl)
  | Cls neg rs => xorb neg (existsb (fun r => in_range (fst r) (snd r) c) rs)
  end.

Record state := State {
  pos : nat;                       (* characters consumed so far *)
  rest : chars;                    (* text still to match *)
  groups : list (string * string)  (* groups set so far, latest first *)
}.

(** Greedy [a+] from a state: every non-empty run of [a], longest first. *)
Fixpoint plus_run (a : atom) (p : nat) (s : chars) (g : list (string * string))
  : list state :=
  match s with
  | c :: t =>
      if atom_ok a c then plus_run a (S p) t g ++ [State (S p) t g] else []
  | [] => []
  end.

Definition at_eol (s : chars) : bool :=
  match s with
  | [] => true
  | [c] => Ascii.eqb c nl
  | _ => false
  end.

Definition captured (before after : state) : string :=
  string_of_list_ascii (firstn (pos after - pos before) (rest before)).

Fixpoint run (r : re) (st : state) : list state :=
  match r with
  | Eps => [st]
  | Atom a =>
      match rest st with
      | c :: t => if atom_ok a c then [State (S (pos st)) t (groups st)] else []
      | [] => []
      end
  | Plus a => plus_run a (pos st) (rest st) (groups st)
  | Seq r1 r2 => flat_map (run r2) (run r1 st)
  | Alt r1 r2 => run r1 st ++ run r2 st
  | Opt r1 => run r1 st ++ [st]
  | Group n r1 =>
      map (fun st' => State (pos st') (rest st')
                        ((n, captured st st') :: groups st'))
          (run r1 st)
  | Bol => if (pos st =? 0)%nat then [st] else []
  | Eol => if at_eol (rest st) then [st] else []
  end.

(** [re.match(pattern, s)]: the groups of the first success, or [None]. *)
Definition rmatch (r : re) (s : string) : option (list (string * string)) :=
  match run r (State 0 (list_ascii_of_string s) []) with
  | st :: _ => Some (groups st)
  | [] => None
  end.

(** [m.group(name)]: [None] when the group took no part in the match. *)
Fixpoint group (g : list (string * string)) (name : string) : option string :=
  match g with
  | [] => None
  | (n, v) :: g' => if String.eqb n name then Some v else group g' name
  end.

(** Pattern text to tree: a literal run. *)
Fixpoint lit (s : string) : re :=
  match s with
  | EmptyString => Eps
  | String c t => Seq (Atom (Chr c)) (lit t)
  end.

(** Juxtaposition of the pieces of a pattern. *)
Fixpoint seqs (rs : list re) : re :=
  match rs with
  | [] => Eps
  | r :: rs' => Seq r (seqs rs')
  end.

Definition digits : atom := Cls false [("0", "9")]%char.
Definition not_dot : atom := Cls true [(".", ".")]%char.

End Re.

(** [datapattern], line 9 of the source. *)
Definition datapattern : Re.re :=
  Re.seqs
    [ Re.Bol; Re.lit "group";
      Re.Group "year" (Re.Plus Re.digits); Re.Atom Re.Dot;
      Re.Group "group" (Re.Plus Re.not_dot); Re.Atom Re.Dot;
      Re.Group "run" (Re.Plus Re.digits); Re.Atom Re.Dot;
      Re.Group "stream" (Re.Plus Re.not_dot); Re.Atom Re.Dot;
      Re.Group "tag" (Re.Plus Re.not_dot); Re.Atom Re.Dot;
      Re.Group "version" (Re.Plus (Re.Cls false [("0", "9"); ("-", "-")]%char));
      Re.Atom Re.Dot; Re.lit "D3PD";
      Re.Opt (Re.Seq (Re.Atom Re.Dot) (Re.Group "edition" (Re.Plus Re.digits)));
      Re.lit "_StreamD3PD_Tau";
      Re.Group "size" (Re.Alt (Re.Seq (Re.lit "SMALL") Re.Eol)
                              (Re.Seq (Re.lit "MEDIUM") Re.Eol)) ].

(** [mcpattern], line 8 of the source; its [name] group is empty. *)
Definition mcpattern : Re.re :=
  Re.seqs
    [ Re.Bol; Re.lit "group";
      Re.Group "year" (Re.Plus Re.digits); Re.Atom Re.Dot;
      Re.lit "perf-tau"; Re.Atom Re.Dot; Re.lit "mc";
      Re.Group "prodyear" (Re.Plus Re.digits); Re.lit "_";
      Re.Group "energy" (Re.Plus Re.digits); Re.lit "TeV"; Re.Atom Re.Dot;
      Re.Group "run" (Re.Plus Re.digits); Re.Atom Re.Dot;
      Re.Group "name" Re.Eps; Re.Atom Re.Dot;
      Re.Group "tag" (Re.Plus Re.not_dot); Re.Atom Re.Dot;
      Re.Group "suffix" (Re.Plus Re.Dot); Re.Eol ].

(** ** Python 2 arithmetic, for the weight text

    [eval] is the whole language; the model evaluates the part the
    metadata is meant to carry, numeric literals combined with [+ - * /]
    and parentheses, and leaves every other text to [eval_other] of the
    [world].  Integers are unbounded ([int]/[long]), floats are binary64. *)

Module Py.

Definition float := spec_float.
Definition prec : Z := 53.
Definition emax : Z := 1024.

Inductive value :=
| VInt (n : Z)
| VFloat (f : float).

Inductive expr :=
| EInt (n : Z)                    (* 12 *)
| EDec (digits : Z) (places : nat) (* 0.15 is EDec 15 2 *)
| EPos (e : expr)
| ENeg (e : expr)
| EAdd (a b : expr)
| ESub (a b : expr)
| EMul (a b : expr)
| EDiv (a b : expr).

(** [float(n)] for an integer: nearest binary64, [OverflowError] beyond. *)
Definition float_of_int (n : Z) : option float :=
  match binary_normalize prec emax n 0 false with
  | S754_infinity _ => None
  | f => Some f
  end.

(** A decimal literal: both [digits] and the power of ten are exact in
    binary64 within the tokenizer's bounds, so the quotient is the
    nearest float to the literal. *)
Definition float_of_dec (digits : Z) (places : nat) : float :=
  SFdiv prec emax (binary_normalize prec emax digits 0 false)
                  (binary_normalize prec emax (10 ^ Z.of_nat places) 0 false).

Definition is_zero (f : float) : bool :=
  match f with S754_zero _ => true | _ => false end.

Definition to_float (v : value) : option float :=
  match v with
  | VInt n => float_of_int n
  | VFloat f => Some f
  end.

Inductive binop := Add | Sub | Mul | Div.

(** Two integers stay integers, and [/] is then floor division;
    otherwise both sides are coerced to float.  [None] is a raised
    [ZeroDivisionError] or [OverflowError]. *)
Definition apply (op : binop) (x y : value) : option value :=
  match x, y with
  | VInt a, VInt b =>
      match op with
      | Add => Some (VInt (a + b))
      | Sub => Some (VInt (a - b))
      | Mul => Some (VInt (a * b))
      | Div => if b =? 0 then None else Some (VInt (a / b))
      end
  | _, _ =>
      match to_float x, to_float y with
      | Some f, Some g =>
          match op with
          | Add => Some (VFloat (SFadd prec emax f g))
          | Sub => Some (VFloat (SFsub prec emax f g))
          | Mul => Some (VFloat (SFmul prec emax f g))
          | Div => if is_zero g then None
                   else Some (VFloat (SFdiv prec emax f g))
          end
      | _, _ => None
      end
  end.

Fixpoint eval (e : expr) : option value :=
  match e with
  | EInt n => Some (VInt n)
  | EDec d k => Some (VFloat (float_of_dec d k))
  | EPos a => eval a
  | ENeg a =>
      match eval a with
      | Some (VInt n) => Some (VInt (- n))
      | Some (VFloat f) => Some (VFloat (SFopp f))
      | None => None
      end
  | EAdd a b =>
      match eval a, eval b with
      | Some x, Some y => apply Add x y | _, _ => None end
  | ESub a b =>
      match eval a, eval b with
      | Some x, Some y => apply Sub x y | _, _ => None end
  | EMul a b =>
      match eval a, eval b with
      | Some x, Some y => apply Mul x y | _, _ => None end
  | EDiv a b =>
      match eval a, eval b with
      | Some x, Some y => apply Div x y | _, _ => None end
  end.

(** *** Reading the text

    Tokens of the arithmetic part.  An integer literal is [0] or starts
    with a non-zero digit (a leading zero makes an octal literal); a
    decimal literal is such an integer, a point and at least one digit,
    within the size that keeps it exact as a quotient.  Any other
    character ends the attempt: the text is not in the part the model
    evaluates. *)

Inductive token :=
| TInt (n : Z)
| TDec (digits : Z) (places : nat)
| TPlus | TMinus | TStar | TSlash | TLParen | TRParen.

Fixpoint span_digits (s : chars) : chars * chars :=
  match s with
  | c :: t =>
      if is_digit c then let (d, r) := span_digits t in (c :: d, r)
      else ([], s)
  | [] => ([], [])
  end.

Definition plain_int (d : chars) : bool :=
  match d with
  | [] => false
  | [_] => true
  | c :: _ => negb (Ascii.eqb c "0")
  end.

(** The number at the head of [c :: t], [c] a digit. *)
Definition number (s : chars) : option (token * chars) :=
  let (d, r) := span_digits s in
  if plain_int d then
    match r with
    | "."%char :: r1 =>
        let (f, r2) := span_digits r1 in
        match f with
        | [] => None
        | _ =>
            let m := int_of_digits (d ++ f)%list in
            if (m <? 2 ^ 53) && (length f <=? 22)%nat
            then Some (TDec m (length f), r2) else None
        end
    | _ => Some (TInt (int_of_digits d), r)
    end
  else None.

Fixpoint tokens (fuel : nat) (s : chars) : option (list token) :=
  match fuel with
  | O => None
  | S fuel' =>
      match s with
      | [] => Some []
      | c :: t =>
          let cons_tok tk := option_map (cons tk) (tokens fuel' t) in
          if Ascii.eqb c " " || Ascii.eqb c "009" then tokens fuel' t
          else if Ascii.eqb c "+" then cons_tok TPlus
          else if Ascii.eqb c "-" then cons_tok TMinus
          else if Ascii.eqb c "*" then cons_tok TStar
          else if Ascii.eqb c "/" then cons_tok TSlash
          else if Ascii.eqb c "(" then cons_tok TLParen
          else if Ascii.eqb c ")" then cons_tok TRParen
          else if is_digit c then
            match number s with
            | Some (tk, r) => option_map (cons tk) (tokens fuel' r)
            | None => None
            end
          else None
      end
  end.

(** Python's grammar for these tokens: unary signs bind tighter than
    [*] and [/], which bind tighter than [+] and [-]; binary operators
    associate to the left. *)
Inductive goal :=
| GExpr | GTerm | GFactor
| GExprRest (lhs : expr)
| GTermRest (lhs : expr).

Fixpoint parse (fuel : nat) (g : goal) (ts : list token)
  : option (expr * list token) :=
  match fuel with
  | O => None
  | S f =>
      match g with
      | GFactor =>
          match ts with
          | TInt n :: r => Some (EInt n, r)
          | TDec d k :: r => Some (EDec d k, r)
          | TPlus :: r =>
              match parse f GFactor r with
              | Some (e, r') => Some (EPos e, r') | None => None end
          | TMinus :: r =>
              match parse f GFactor r with
              | Some (e, r') => Some (ENeg e, r') | None => None end
          | TLParen :: r =>
              match parse f GExpr r with
              | Some (e, TRParen :: r') => Some (e, r') | _ => None end
          | _ => None
          end
      | GTerm =>
          match parse f GFactor ts with
          | Some (e, r) => parse f (GTermRest e) r | None => None end
      | GTermRest lhs =>
          match ts with
          | TStar :: r =>
              match parse f GFactor r with
              | Some (e, r') => parse f (GTermRest (EMul lhs e)) r'
              | None => None end
          | TSlash :: r =>
              match parse f GFactor r with
              | Some (e, r') => parse f (GTermRest (EDiv lhs e)) r'
              | None => None end
          | _ => Some (lhs, ts)
          end
      | GExpr =>
          match parse f GTerm ts with
          | Some (e, r) => parse f (GExprRest e) r | None => None end
      | GExprRest lhs =>
          match ts with
          | TPlus :: r =>
              match parse f GTerm r with
              | Some (e, r') => parse f (GExprRest (EAdd lhs e)) r'
              | None => None end
          | TMinus :: r =>
              match parse f GTerm r with
              | Some (e, r') => parse f (GExprRest (ESub lhs e)) r'
              | None => None end
          | _ => Some (lhs, ts)
          end
      end
  end.

(** The arithmetic expression a text spells, if it spells one. *)
Definition read (text : string) : option expr :=
  let s := list_ascii_of_string text in
  match tokens (S (length s)) s with
  | Some ts =>
      match parse (4 * length ts + 4) GExpr ts with
      | Some (e, []) => Some e
      | _ => None
      end
  | None => None
  end.

End Py.

(** ** [os.path] (POSIX) *)

Module Path.

Definition slash : ascii := "/"%char.

Fixpoint ends_with_slash (s : string) : bool :=
  match s with
  | EmptyString => false
  | String c EmptyString => Ascii.eqb c slash
  | String _ t => ends_with_slash t
  end.

(** [os.path.join(a, b)] *)
Definition join (a b : string) : string :=
  match b with
  | String c _ =>
      if Ascii.eqb c slash then b
      else if String.eqb a "" || ends_with_slash a then a ++ b
      else a ++ "/" ++ b
  | EmptyString =>
      if String.eqb a "" || ends_with_slash a then a else a ++ "/"
  end.

(** [p[:i], p[i:]] with [i = p.rfind('/') + 1] *)
Fixpoint cut (p : string) : string * string :=
  match p with
  | EmptyString => (EmptyString, EmptyString)
  | String c t =>
      let (h, tl) := cut t in
      match h with
      | String _ _ => (String c h, tl)
      | EmptyString =>
          if Ascii.eqb c slash then (String c EmptyString, t)
          else (EmptyString, String c t)
      end
  end.

(** [s.rstrip('/')] *)
Fixpoint rstrip (s : string) : string :=
  match s with
  | EmptyString => EmptyString
  | String c t =>
      match rstrip t with
      | EmptyString => if Ascii.eqb c slash then EmptyString
                       else String c EmptyString
      | t' => String c t'
      end
  end.

(** [os.path.split(p)]: a head made only of slashes is kept as it is. *)
Definition split (p : string) : string * string :=
  let (h, tl) := cut p in
  match rstrip h with
  | EmptyString => (h, tl)
  | h' => (h', tl)
  end.

(** [os.path.basename(p)] *)
Definition basename (p : string) : string := snd (cut p).

End Path.

(** ** [xml.dom.minidom]: the parsed document *)

Module Dom.

(** An element, or a node that carries text (text, CDATA, comment). *)
Inductive node :=
| Element (tagName : string) (childNodes : list node)
| CharData (data : string).

Definition nodeValue (n : node) : option string :=
  match n with
  | Element _ _ => None
  | CharData d => Some d
  end.

Definition children (n : node) : list node :=
  match n with
  | Element _ cs => cs
  | CharData _ => []
  end.

(** [getElementsByTagName]: the descendant elements with the tag, in
    document order. *)
Fixpoint elements_in (name : string) (n : node) : list node :=
  match n with
  | Element t cs =>
      (if String.eqb t name then [n] else []) ++
      flat_map (elements_in name) cs
  | CharData _ => []
  end.

Definition getElementsByTagName (name : string) (cs : list node) : list node :=
  flat_map (elements_in name) cs.

End Dom.

(** ** [glob] and [fnmatch] *)

Module Glob.

(** [fnmatch] of a name against a pattern of literal characters, [*] and
    [?]; the source's patterns have no bracket expression. *)
Fixpoint wild (p : chars) (s : chars) : bool :=
  match p with
  | [] => match s with [] => true | _ => false end
  | c :: p' =>
      if Ascii.eqb c "*" then
        (fix star (s : chars) : bool :=
           wild p' s || match s with [] => false | _ :: t => star t end) s
      else
        match s with
        | [] => false
        | d :: t => (Ascii.eqb c "?" || Ascii.eqb c d) && wild p' t
        end
  end.

Definition fnmatch (name pattern : string) : bool :=
  wild (list_ascii_of_string pattern) (list_ascii_of_string name).

Definition magic_char (c : ascii) : bool :=
  Ascii.eqb c "*" || Ascii.eqb c "?" || Ascii.eqb c "[".

Definition has_magic (s : string) : bool :=
  existsb magic_char (list_ascii_of_string s).

Definition hidden (name : string) : bool :=
  match name with
  | String c _ => Ascii.eqb c "."
  | EmptyString => false
  end.

End Glob.

(** ** The world outside the module *)

Record world := World {
  dataroot : string;                 (* os.environ['DATAROOT'] *)
  isdir : string -> bool;            (* os.path.isdir *)
  isfile : string -> bool;           (* os.path.isfile *)
  lexists : string -> bool;          (* os.path.lexists *)
  listdir : string -> list string;   (* os.listdir, [] where it fails *)
  iglob : string -> list string;     (* glob.iglob of a directory name that
                                        itself has wildcard characters *)
  xml_parse : string -> option (list Dom.node);
                                     (* minidom.parse: the document's
                                        children, None where it raises *)
  eval_other : string -> option (list string) -> string -> option Py.float;
                                     (* [eval_other name periods text]:
                                        float(eval(text)) in the frame of the
                                        call get_sample(name, periods), for a
                                        text that is not numeric arithmetic;
                                        None where it raises.  The other
                                        names the frame holds (base,
                                        metafile, doc, meta, datatype,
                                        classname) and the module's globals
                                        are determined by the world and
                                        [name]; the evaluation is taken to
                                        leave the module's tables as they
                                        are *)
  str_order : list string -> list string;
  int_order : list Z -> list Z;      (* the order in which a dictionary lists
                                        its keys, from the order in which
                                        they were inserted: it follows the
                                        hashes of the keys and the collisions
                                        in the interpreter's table *)
  str_order_perm : forall keys, Permutation (str_order keys) keys;
  int_order_perm : forall keys, Permutation (int_order keys) keys
}.

Module GlobFs.
Import Glob.

Definition glob1 (w : world) (dirname pattern : string) : list string :=
  let dirname := if String.eqb dirname "" then "." else dirname in
  let names := listdir w dirname in
  let names := if hidden pattern then names
               else List.filter (fun n => negb (hidden n)) names in
  List.filter (fun n => fnmatch n pattern) names.

Definition glob0 (w : world) (dirname basename : string) : list string :=
  if String.eqb basename "" then
    if isdir w dirname then [basename] else []
  else
    if lexists w (Path.join dirname basename) then [basename] else [].

(** [glob.glob(pathname)] *)
Definition glob (w : world) (pathname : string) : list string :=
  if negb (has_magic pathname) then
    if lexists w pathname then [pathname] else []
  else
    let (dirname, basename) := Path.split pathname in
    if String.eqb dirname "" then glob1 w "." basename
    else
      let dirs := if negb (String.eqb dirname pathname) && has_magic dirname
                  then iglob w dirname else [dirname] in
      let glob_in_dir := if has_magic basename then glob1 w else glob0 w in
      flat_map (fun d => map (Path.join d) (glob_in_dir d basename)) dirs.

End GlobFs.

(** ** The module's tables *)

Record Dataset := mkDataset {
  name : string;
  datatype : Z;
  classtype : Z;
  treename : string;
  weight : Py.float;
  files : list string
}.

(** The literals of lines 13-21, in the order written, which is the
    order in which the interpreter inserts the entries. *)
Definition classes_items : list (string * Z) :=
  [ ("BACKGROUND", 0); ("SIGNAL", 1) ].

Definition types_items : list (string * Z) :=
  [ ("DATA", 0); ("MC", 1) ].

Definition classes : gmap string Z := list_to_map classes_items.

Definition types : gmap string Z := list_to_map types_items.

(** [xrange(lo, hi)] kept as its two bounds. *)
Definition data_periods : gmap string (Z * Z) :=
  list_to_map
    [ ("AB", (152166, 155161));
      ("C", (155228, 156683));
      ("D", (158045, 159225));
      ("E", (160387, 161949));
      ("F", (162347, 162883));
      ("G", (165591, 166384));
      ("H", (166466, 166965)) ].

Definition in_xrange (n : Z) (r : Z * Z) : bool :=
  (fst r <=? n) && (n <? snd r).

(** ** Outcomes *)

Inductive exn :=
| KeyError (key : string)
| TypeError.

Inductive outcome (A : Type) :=
| Return (v : A)
| Raise (e : exn).
Arguments Return {A} v.
Arguments Raise {A} e.

(** ** Lines 47-56: the metadata *)

Definition py_str (v : option string) : string :=
  match v with Some s => s | None => "None" end.

(** [node.getElementsByTagName(tag)[0].childNodes[0].nodeValue];
    the outer [None] is an [IndexError]. *)
Definition field (n : Dom.node) (tag : string) : option (option string) :=
  e ← head (Dom.getElementsByTagName tag (Dom.children n));
  c ← head (Dom.children e);
  Some (Dom.nodeValue c).

(** [float(eval(text))], at line 52 of the call [get_sample(name,
    periods)]: numeric arithmetic does not look at the frame, any other
    text may. *)
Definition eval_weight (w : world) (name : string)
    (periods : option (list string)) (text : string) : option Py.float :=
  match Py.read text with
  | Some e => v ← Py.eval e; Py.to_float v
  | None => eval_other w name periods text
  end.

(** The [try] block of the call [get_sample(name, periods)]; [None] when
    anything in it raises. *)
Definition parse_metadata (w : world) (name : string)
    (periods : option (list string)) (metafile : string)
  : option (string * string * Py.float * string) :=
  doc ← xml_parse w metafile;
  meta0 ← head (Dom.getElementsByTagName "meta" doc);
  t ← field meta0 "type";
  datatype ← upper <$> t;
  c ← field meta0 "class";
  classname ← upper <$> c;
  wt ← field meta0 "weight";
  weight ← eval_weight w name periods (py_str wt);
  tr ← field meta0 "tree";
  Some (datatype, classname, weight, py_str tr).

(** ** Lines 83-116: the loop over the directories of a DATA sample *)

Record run_entry := RunEntry { edition : Z; dir : string }.

(** The dictionary [runs] of line 85, kept as its entries in the order
    in which their keys were inserted; assigning to a key that is there
    leaves it in its place. *)
Module Dict.

Definition t := list (Z * run_entry).

(** [d[k]], [d.has_key(k)] *)
Fixpoint get (d : t) (k : Z) : option run_entry :=
  match d with
  | [] => None
  | (k', v) :: more => if k' =? k then Some v else get more k
  end.

(** [d[k] = v] *)
Fixpoint set (d : t) (k : Z) (v : run_entry) : t :=
  match d with
  | [] => [(k, v)]
  | (k', v') :: more =>
      if k' =? k then (k', v) :: more else (k', v') :: set more k v
  end.

Definition keys (d : t) : list Z := map fst d.

(** [d.items()]: the entries, in the order in which the interpreter
    lists the keys. *)
Definition items (w : world) (d : t) : list (Z * run_entry) :=
  flat_map (fun k => match get d k with
                     | Some v => [(k, v)]
                     | None => []
                     end)
           (int_order w (keys d)).

End Dict.

(** [print line] *)
Definition say (log : list string) (line : string) : list string :=
  (log ++ [line])%list.

(** The inner loop over [periods], lines 94-101. *)
Inductive scan :=
| Undefined (period : string)   (* line 97: print and return None *)
| InPeriod                      (* line 100: break *)
| NotInPeriod.                  (* the loop ran out *)

Fixpoint scan_periods (runnumber : Z) (periods : list string) : scan :=
  match periods with
  | [] => NotInPeriod
  | period :: more =>
      match data_periods !! period with
      | None => Undefined period
      | Some r => if in_xrange runnumber r then InPeriod
                  else scan_periods runnumber more
      end
  end.

Inductive loop_result :=
| Finished (runs : Dict.t) (log : list string)
| ReturnedNone (log : list string)
| Raised (e : exn) (log : list string).

(** [edition = 0; if match.group('edition'): edition = int(...)] *)
Definition edition_of (g : list (string * string)) : Z :=
  match Re.group g "edition" with
  | Some (String c t) => py_int (String c t)
  | _ => 0
  end.

(** Lines 104-112, for a directory that passed the filter. *)
Definition record_run (runs : Dict.t) (log : list string)
    (runnumber ed : Z) (d datasetname : string)
  : Dict.t * list string :=
  match Dict.get runs runnumber with
  | Some stored =>
      let log' := say log ("Warning: multiple editions of dataset " ++
                           datasetname ++ " exist!") in
      if edition stored <? ed
      then (Dict.set runs runnumber (RunEntry ed d), log')
      else (runs, log')
  | None => (Dict.set runs runnumber (RunEntry ed d), log)
  end.

Fixpoint data_loop (periods : option (list string)) (dirs : list string)
    (runs : Dict.t) (log : list string) : loop_result :=
  match dirs with
  | [] => Finished runs log
  | d :: more =>
      let datasetname := Path.basename d in
      match Re.rmatch datapattern datasetname with
      | None =>
          data_loop periods more runs
            (say log ("Warning: directory " ++ datasetname ++
                      " is not a valid dataset name!"))
      | Some g =>
          match Re.group g "run" with
          | None => Raised TypeError log
          | Some r =>
              let runnumber := py_int r in
              let verdict :=
                match periods with
                | Some ps => scan_periods runnumber ps
                | None => InPeriod
                end in
              match verdict with
              | Undefined period =>
                  ReturnedNone (say log ("Period " ++ period ++ " is not defined!"))
              | NotInPeriod => data_loop periods more runs log
              | InPeriod =>
                  let (runs', log') :=
                    record_run runs log runnumber (edition_of g) d datasetname in
                  data_loop periods more runs' log'
              end
          end
      end
  end.

(** ** [get_sample] *)

(** [table.keys()], for a table given by its literal: the keys in the
    order in which the interpreter lists them. *)
Definition table_keys (w : world) (items : list (string * Z)) : list string :=
  str_order w (items.*1).

(** The lines printed for a name missing from a table (58-64, 68-74). *)
Definition not_defined (w : world) (what plural : string) (key : string)
    (items : list (string * Z)) : list string :=
  (what ++ " " ++ key ++ " is not defined!") ::
  (if (0 <? Z.of_nat (size (list_to_map items : gmap string Z)))
   then "Use one of these:" :: table_keys w items
   else ["No " ++ plural ++ " have been defined!"]).

(** [if periods:] *)
Definition truthy (periods : option (list string)) : bool :=
  match periods with
  | Some (_ :: _) => true
  | _ => false
  end.

Definition joined (periods : option (list string)) : string :=
  match periods with
  | Some ps => String.concat "" ps
  | None => ""
  end.

Definition get_sample (w : world) (name : string)
    (periods : option (list string))
  : outcome (option Dataset) * list string :=
  let base := Path.join (dataroot w) name in
  if negb (isdir w base) then
    (Return None, ["Sample " ++ name ++ " not found at " ++ base])
  else
  let metafile := Path.join base "meta.xml" in
  if negb (isfile w metafile) then
    (Return None, ["Metadata " ++ metafile ++ " not found!"])
  else
  match parse_metadata w name periods metafile with
  | None => (Return None, ["Could not parse metadata!"])
  | Some (datatype, classname, weight, treename) =>
  match classes !! classname with
  | None =>
      (Return None, not_defined w "Class" "classes" classname classes_items)
  | Some classtype =>
  let log :=
    match types !! datatype with
    | None => not_defined w "Datatype" "datatypes" datatype types_items
    | Some _ => []
    end in
  match types !! datatype with
  | None => (Raise (KeyError datatype), log)              (* line 75 *)
  | Some datatype =>
  let dirs := GlobFs.glob w (Path.join base "*") in
  let actualdirs := List.filter (fun d => isdir w d) dirs in
  match types !! "DATA" with
  | None => (Raise (KeyError "DATA"), log)
  | Some data =>
  if datatype =? data then
    match data_loop periods actualdirs [] log with
    | ReturnedNone log' => (Return None, log')
    | Raised e log' => (Raise e, log')
    | Finished runs log' =>
        let files :=
          flat_map (fun kv => GlobFs.glob w (Path.join (dir (snd kv)) "*root*"))
                   (Dict.items w runs) in
        let samplename :=
          if truthy periods then name ++ "_" ++ joined periods else name in
        (Return (Some (mkDataset samplename datatype classtype treename
                                 weight files)), log')
    end
  else
    let files :=
      flat_map (fun d => GlobFs.glob w (Path.join d "*root*")) actualdirs in
    (Return (Some (mkDataset name datatype classtype treename weight files)),
     log)
  end end end end.

(** ** Concrete worlds, for the examples below *)

Module Example.

(** A file system given by its directories (path, entries) and its
    plain files; [DATAROOT] is [/data].  The dictionaries list their keys
    in the order of insertion. *)
Definition fs (dirs : list (string * list string)) (plain : list string)
    (doc : option (list Dom.node))
    (other : string -> option (list string) -> string -> option Py.float)
  : world :=
  let is_dir p := existsb (fun e => String.eqb (fst e) p) dirs in
  let is_file p := existsb (String.eqb p) plain in
  {| dataroot := "/data";
     isdir := is_dir;
     isfile := is_file;
     lexists := fun p => is_dir p || is_file p;
     listdir := fun p =>
       match find (fun e => String.eqb (fst e) p) dirs with
       | Some e => snd e
       | None => []
       end;
     iglob := fun _ => [];
     xml_parse := fun p =>
       if String.eqb p "/data/samp/meta.xml" then doc else None;
     eval_other := other;
     str_order := fun keys => keys;
     int_order := fun keys => keys;
     str_order_perm := fun keys => Permutation_refl keys;
     int_order_perm := fun keys => Permutation_refl keys |}.

Definition meta (ty cl wt tree : string) : option (list Dom.node) :=
  Some [ Dom.Element "meta"
           [ Dom.Element "type" [Dom.CharData ty];
             Dom.Element "class" [Dom.CharData cl];
             Dom.Element "weight" [Dom.CharData wt];
             Dom.Element "tree" [Dom.CharData tree] ] ].

Definition no_other
  : string -> option (list string) -> string -> option Py.float :=
  fun _ _ _ => None.

Definition run153000 : string :=
  "group10.perf-tau.00153000.physics.r1.01-01.D3PD_StreamD3PD_TauSMALL".
Definition run153000_ed2 : string :=
  "group10.perf-tau.00153000.physics.r1.01-01.D3PD.2_StreamD3PD_TauSMALL".
Definition run160000 : string :=
  "group10.perf-tau.00160000.physics.r1.01-01.D3PD_StreamD3PD_TauMEDIUM".

(** A DATA sample with two runs. *)
Definition data_world (ty wt : string) : world :=
  fs [ ("/data/samp", ["meta.xml"; run153000; run160000]);
       ("/data/samp/" ++ run153000, ["a.root"; "notes.txt"]);
       ("/data/samp/" ++ run160000, ["b.root"]) ]
     ["/data/samp/meta.xml";
      "/data/samp/" ++ run153000 ++ "/a.root";
      "/data/samp/" ++ run153000 ++ "/notes.txt";
      "/data/samp/" ++ run160000 ++ "/b.root"]
     (meta ty "signal" wt "tau") no_other.

End Example.


(** ** What a pattern denotes

    [Re.den r start u v]: the pattern [r] can consume exactly [u] when
    [v] follows it, [start] telling whether [u] begins at the start of
    the subject. *)

Definition is_nil {A} (l : list A) : bool :=
  match l with [] => true | _ => false end.

Fixpoint den (r : Re.re) (start : bool) (u v : chars) : Prop :=
  match r with
  | Re.Eps => u = []
  | Re.Atom a => exists c, u = [c] /\ Re.atom_ok a c = true
  | Re.Plus a => u <> [] /\ Forall (fun c => Re.atom_ok a c = true) u
  | Re.Seq r1 r2 =>
      exists u1 u2, u = (u1 ++ u2)%list /\
        den r1 start u1 (u2 ++ v)%list /\
        den r2 (start && is_nil u1) u2 v
  | Re.Alt r1 r2 => den r1 start u v \/ den r2 start u v
  | Re.Opt r1 => den r1 start u v \/ u = []
  | Re.Group _ r1 => den r1 start u v
  | Re.Bol => u = [] /\ start = true
  | Re.Eol => u = [] /\ Re.at_eol v = true
  end.

(** The groups a pattern sets on every success. *)
Fixpoint binds (r : Re.re) : list string :=
  match r with
  | Re.Group n r1 => n :: binds r1
  | Re.Seq r1 r2 => (binds r1 ++ binds r2)%list
  | _ => []
  end.

(** ** The recorded-data grammar, spelled out *)

Definition txt (s : string) : chars := list_ascii_of_string s.

Definition some (P : ascii -> bool) (u : chars) : Prop :=
  u <> [] /\ Forall (fun c => P c = true) u.

Definition not_dot_char (c : ascii) : bool := negb (Ascii.eqb c ".").
Definition version_char (c : ascii) : bool := is_digit c || Ascii.eqb c "-".
Definition not_newline (c : ascii) : bool := negb (Ascii.eqb c nl).

(** What [datapattern] asks of a name: the fields, each separator any one
    character but a newline, the literal [_StreamD3PD_Tau], and nothing
    after the size but possibly one final newline. *)
Definition data_name_shape (s : chars) : Prop :=
  exists (year grp run stream tag version ed size tail : chars)
         (c1 c2 c3 c4 c5 c6 : ascii),
    s = (txt "group" ++ year ++ c1 :: grp ++ c2 :: run ++ c3 :: stream ++
         c4 :: tag ++ c5 :: version ++ c6 :: txt "D3PD" ++ ed ++
         txt "_StreamD3PD_Tau" ++ size ++ tail)%list /\
    some is_digit year /\ some not_dot_char grp /\ some is_digit run /\
    some not_dot_char stream /\ some not_dot_char tag /\
    some version_char version /\
    Forall (fun c => not_newline c = true) [c1; c2; c3; c4; c5; c6] /\
    (ed = [] \/
     exists c7 e, ed = c7 :: e /\ not_newline c7 = true /\ some is_digit e) /\
    (size = txt "SMALL" \/ size = txt "MEDIUM") /\
    (tail = [] \/ tail = [nl]).

(** The grammar as the specification words it: literal dots between the
    fields and the literal [_StreamD3PDTau]. *)
Definition claimed_datapattern : Re.re :=
  let dot := Re.Atom (Re.Chr ".") in
  Re.seqs
    [ Re.Bol; Re.lit "group";
      Re.Group "year" (Re.Plus Re.digits); dot;
      Re.Group "group" (Re.Plus Re.not_dot); dot;
      Re.Group "run" (Re.Plus Re.digits); dot;
      Re.Group "stream" (Re.Plus Re.not_dot); dot;
      Re.Group "tag" (Re.Plus Re.not_dot); dot;
      Re.Group "version" (Re.Plus (Re.Cls false [("0", "9"); ("-", "-")]%char));
      dot; Re.lit "D3PD";
      Re.Opt (Re.Seq dot (Re.Group "edition" (Re.Plus Re.digits)));
      Re.lit "_StreamD3PDTau";
      Re.Group "size" (Re.Alt (Re.Seq (Re.lit "SMALL") Re.Eol)
                              (Re.Seq (Re.lit "MEDIUM") Re.Eol)) ].

Module Names.
(** As the specification's template reads. *)
Definition as_claimed : string :=
  "group10.perf-tau.00153000.physics.r1.01-01.D3PD_StreamD3PDTauSMALL".
(** Underscores for dots, and the source's [_Tau]. *)
Definition underscored : string :=
  "group10_perf-tau_00153000_physics_r1_01-01_D3PD_StreamD3PD_TauSMALL".
End Names.

(** ** Reading the stages of [get_sample] *)

(** The metadata read by the call [get_sample(name, periods)] when the
    sample's directory and [meta.xml] exist (lines 39-56): upper-cased
    type and class, weight, tree name. *)
Definition sample_meta (w : world) (name : string)
    (periods : option (list string))
  : option (string * string * Py.float * string) :=
  let base := Path.join (dataroot w) name in
  if isdir w base && isfile w (Path.join base "meta.xml")
  then parse_metadata w name periods (Path.join base "meta.xml")
  else None.

(** The candidate directories, [actualdirs] of line 77. *)
Definition actualdirs (w : world) (name : string) : list string :=
  List.filter (fun d => isdir w d)
         (GlobFs.glob w (Path.join (Path.join (dataroot w) name) "*")).

(** In the order given, the label [p] is met, absent from the period
    table, before any label whose range holds the run. *)
Definition meets_undefined (runnumber : Z) (periods : list string)
    (p : string) : Prop :=
  exists before after,
    periods = (before ++ p :: after)%list /\
    data_periods !! p = None /\
    Forall (fun q => exists r, data_periods !! q = Some r /\
                               in_xrange runnumber r = false) before.

Module Example2.
Import Example.

(** A DATA sample with the single run 153000, of period AB. *)
Definition one_run : world :=
  fs [ ("/data/samp", ["meta.xml"; run153000]);
       ("/data/samp/" ++ run153000, ["a.root"]) ]
     ["/data/samp/meta.xml"; "/data/samp/" ++ run153000 ++ "/a.root"]
     (meta "DATA" "signal" "1" "tau") no_other.

(** The same run twice, the second directory of edition 2. *)
Definition two_editions : world :=
  fs [ ("/data/samp", ["meta.xml"; run153000; run153000_ed2]);
       ("/data/samp/" ++ run153000, ["old.root"]);
       ("/data/samp/" ++ run153000_ed2, ["new.root"]) ]
     ["/data/samp/meta.xml"]
     (meta "DATA" "signal" "1" "tau") no_other.
End Example2.

(** The directory's run is kept by the period filter (lines 93-103). *)
Definition kept (periods : option (list string)) (runnumber : Z) : Prop :=
  match periods with
  | Some ps => scan_periods runnumber ps = InPeriod
  | None => True
  end.

(** ** The metadata, as the specification speaks of it *)

Definition metafile_of (w : world) (sample : string) : string :=
  Path.join (Path.join (dataroot w) sample) "meta.xml".

(** The text of the weight field, as passed to [eval]. *)
Definition weight_text (w : world) (sample : string) : option string :=
  doc ← xml_parse w (metafile_of w sample);
  meta0 ← head (Dom.getElementsByTagName "meta" doc);
  wt ← field meta0 "weight";
  Some (py_str wt).

Definition expected_fields : list string := ["type"; "class"; "weight"; "tree"].

(** A metadata file that cannot be used. *)
Inductive bad_metadata (w : world) (name : string)
    (periods : option (list string)) (metafile : string) : Prop :=
| Malformed :                      (* the document does not parse *)
    xml_parse w metafile = None -> bad_metadata w name periods metafile
| NoMeta doc :                     (* no meta element, hence no field *)
    xml_parse w metafile = Some doc ->
    Dom.getElementsByTagName "meta" doc = [] ->
    bad_metadata w name periods metafile
| MissingField doc meta0 more tag : (* a field has no element *)
    xml_parse w metafile = Some doc ->
    Dom.getElementsByTagName "meta" doc = meta0 :: more ->
    In tag expected_fields ->
    Dom.getElementsByTagName tag (Dom.children meta0) = [] ->
    bad_metadata w name periods metafile
| EmptyField doc meta0 more tag e es : (* a field's element is empty *)
    xml_parse w metafile = Some doc ->
    Dom.getElementsByTagName "meta" doc = meta0 :: more ->
    In tag expected_fields ->
    Dom.getElementsByTagName tag (Dom.children meta0) = e :: es ->
    Dom.children e = [] ->
    bad_metadata w name periods metafile
| WeightRaises doc meta0 more wt : (* eval or float raises on the weight *)
    xml_parse w metafile = Some doc ->
    Dom.getElementsByTagName "meta" doc = meta0 :: more ->
    field meta0 "weight" = Some wt ->
    eval_weight w name periods (py_str wt) = None ->
    bad_metadata w name periods metafile.

(** *** Arithmetic, as the specification speaks of it *)

(** All literals are integers. *)
Fixpoint integral (e : Py.expr) : bool :=
  match e with
  | Py.EInt _ => true
  | Py.EDec _ _ => false
  | Py.EPos a | Py.ENeg a => integral a
  | Py.EAdd a b | Py.ESub a b | Py.EMul a b | Py.EDiv a b =>
      integral a && integral b
  end.

Fixpoint division_free (e : Py.expr) : bool :=
  match e with
  | Py.EInt _ | Py.EDec _ _ => true
  | Py.EPos a | Py.ENeg a => division_free a
  | Py.EAdd a b | Py.ESub a b | Py.EMul a b =>
      division_free a && division_free b
  | Py.EDiv _ _ => false
  end.

(** The arithmetic value of an expression, exactly, in the rationals;
    [None] for a division by zero. *)
Fixpoint exact (e : Py.expr) : option Q :=
  match e with
  | Py.EInt n => Some (inject_Z n)
  | Py.EDec d k => Some (inject_Z d / inject_Z (10 ^ Z.of_nat k))%Q
  | Py.EPos a => exact a
  | Py.ENeg a => Qopp <$> exact a
  | Py.EAdd a b => x ← exact a; y ← exact b; Some (x + y)%Q
  | Py.ESub a b => x ← exact a; y ← exact b; Some (x - y)%Q
  | Py.EMul a b => x ← exact a; y ← exact b; Some (x * y)%Q
  | Py.EDiv a b =>
      x ← exact a; y ← exact b;
      if Qeq_bool y 0 then None else Some (x / y)%Q
  end.

(** The value of an integer expression when [/] rounds the quotient
    down; [None] for a division by zero. *)
Fixpoint floor_value (e : Py.expr) : option Z :=
  match e with
  | Py.EInt n => Some n
  | Py.EDec _ _ => None
  | Py.EPos a => floor_value a
  | Py.ENeg a => Z.opp <$> floor_value a
  | Py.EAdd a b => x ← floor_value a; y ← floor_value b; Some (x + y)
  | Py.ESub a b => x ← floor_value a; y ← floor_value b; Some (x - y)
  | Py.EMul a b => x ← floor_value a; y ← floor_value b; Some (x * y)
  | Py.EDiv a b =>
      x ← floor_value a; y ← floor_value b;
      if y =? 0 then None else Some (x / y)
  end.

(** The rational a finite float stands for. *)
Definition float_value (f : Py.float) : option Q :=
  match f with
  | S754_zero _ => Some 0%Q
  | S754_finite s m e =>
      Some (inject_Z (if s then Z.neg m else Z.pos m) * (2 ^ e))%Q
  | _ => None
  end.

Module Example3.
Import Example.

(** Python's answer on the texts asked below: [len] of a string of four
    characters, and [len] of the argument [periods], which raises
    [TypeError] when no filter is given. *)
Definition len_text (name : string) (periods : option (list string))
    (text : string) : option Py.float :=
  if String.eqb text "len('abcd')" then Py.float_of_int 4
  else if String.eqb text "len(periods)" then
    match periods with
    | Some ps => Py.float_of_int (Z.of_nat (length ps))
    | None => None
    end
  else None.

(** A sample whose weight is a call, not arithmetic. *)
Definition call_weight : world :=
  fs [ ("/data/samp", ["meta.xml"]) ] ["/data/samp/meta.xml"]
     (meta "MC" "signal" "len('abcd')" "tau") len_text.

(** A sample whose weight is read off the argument [periods]. *)
Definition periods_weight : world :=
  fs [ ("/data/samp", ["meta.xml"]) ] ["/data/samp/meta.xml"]
     (meta "MC" "signal" "len(periods)" "tau") len_text.

(** A sample whose meta.xml has no tree field. *)
Definition no_tree : world :=
  fs [ ("/data/samp", ["meta.xml"]) ] ["/data/samp/meta.xml"]
     (Some [ Dom.Element "meta"
               [ Dom.Element "type" [Dom.CharData "MC"];
                 Dom.Element "class" [Dom.CharData "signal"];
                 Dom.Element "weight" [Dom.CharData "1"] ] ])
     no_other.
End Example3.

(** ** The files of a simulated sample, as the specification speaks of them *)

Fixpoint no_slash (s : string) : bool :=
  match s with
  | EmptyString => true
  | String c t => negb (Ascii.eqb c Path.slash) && no_slash t
  end.

(** What [os.listdir] and [os.path.isdir] give on any file system: entry
    names are not empty and have no slash, and the empty path is no
    directory. *)
Record sane (w : world) : Prop := {
  plain_names : forall p n, In n (listdir w p) -> n <> "" /\ no_slash n = true;
  empty_no_dir : isdir w "" = false
}.

(** What [os.path.join] puts before a relative component. *)
Definition lead (a : string) : string :=
  if String.eqb a "" || Path.ends_with_slash a then a else a ++ "/".

(** The sample root as [glob] names it: [DATAROOT/name] without trailing
    slashes. *)
Definition sample_root (w : world) (sample : string) : string :=
  fst (Path.split (Path.join (Path.join (dataroot w) sample) "*")).

(** The subdirectories [glob] lists: those whose name has no leading dot. *)
Definition listed_dirs (w : world) (root : string) : list string :=
  List.filter (fun n => negb (Glob.hidden n) && isdir w (Path.join root n))
              (listdir w root).

(** The entries of a directory with [root] in their name and no leading
    dot. *)
Definition root_entries (w : world) (d : string) : list string :=
  List.filter (fun f => negb (Glob.hidden f) && contains (txt "root") (txt f))
              (listdir w d).

Module Example4.
Import Example.

(** A simulated sample with a hidden entry in [d1] and a hidden
    directory [.cache]. *)
Definition mc_plain : world :=
  fs [ ("/data/samp", ["meta.xml"; ".cache"; "d1"]);
       ("/data/samp/.cache", ["old.root"]);
       ("/data/samp/d1", [".root_hidden"; "a.root.1"; "b.txt"; "c_root_x"]) ]
     ["/data/samp/meta.xml"; "/data/samp/.cache/old.root";
      "/data/samp/d1/.root_hidden"; "/data/samp/d1/a.root.1";
      "/data/samp/d1/b.txt"; "/data/samp/d1/c_root_x"]
     (meta "MC" "background" "1" "tau") no_other.

(** The same with one more directory, named [d[1]].  As a pattern this
    name stands for [d1] only, so no directory of [/data/samp] other
    than [d1] answers to it: [glob.iglob] of it gives [d1]. *)
Definition mc_world : world :=
  let w :=
    fs [ ("/data/samp", ["meta.xml"; ".cache"; "d[1]"; "d1"]);
         ("/data/samp/.cache", ["old.root"]);
         ("/data/samp/d[1]", ["x.root"]);
         ("/data/samp/d1", [".root_hidden"; "a.root.1"; "b.txt"; "c_root_x"]) ]
       ["/data/samp/meta.xml"; "/data/samp/.cache/old.root";
        "/data/samp/d[1]/x.root";
        "/data/samp/d1/.root_hidden"; "/data/samp/d1/a.root.1";
        "/data/samp/d1/b.txt"; "/data/samp/d1/c_root_x"]
       (meta "MC" "background" "1" "tau") no_other in
  {| dataroot := dataroot w; isdir := isdir w; isfile := isfile w;
     lexists := lexists w; listdir := listdir w;
     iglob := fun p => if String.eqb p "/data/samp/d[1]"
                       then ["/data/samp/d1"] else [];
     xml_parse := xml_parse w; eval_other := eval_other w;
     str_order := str_order w; int_order := int_order w;
     str_order_perm := str_order_perm w;
     int_order_perm := int_order_perm w |}.
End Example4.

(** The directory [d] is named for run [r] in edition [ed] and is kept by
    the period filter. *)
Definition names_run (periods : option (list string)) (d : string)
    (r ed : Z) : Prop :=
  exists g s,
    Re.rmatch datapattern (Path.basename d) = Some g /\
    Re.group g "run" = Some s /\
    py_int s = r /\ edition_of g = ed /\ kept periods r.

(** The loop returns [None] for a directory of the sample: it matches the
    grammar and its scan of the labels meets an undefined one. *)
Definition stops_at_undefined (w : world) (sample : string)
    (periods : option (list string)) : Prop :=
  exists ps d g r p,
    periods = Some ps /\ In d (actualdirs w sample) /\
    Re.rmatch datapattern (Path.basename d) = Some g /\
    Re.group g "run" = Some r /\
    meets_undefined (py_int r) ps p.

(** The name a resolved sample gets (lines 82, 115-116). *)
Definition sample_name (sample : string) (code : Z)
    (periods : option (list string)) : string :=
  if (code =? 0) && truthy periods
  then sample ++ "_" ++ joined periods else sample.

(** The two warnings of the loop (lines 90 and 108). *)
Definition invalid_name_warning (d : string) : string :=
  "Warning: directory " ++ Path.basename d ++ " is not a valid dataset name!".

Definition editions_warning (d : string) : string :=
  "Warning: multiple editions of dataset " ++ Path.basename d ++ " exist!".

(** The named groups of a pattern, each with its body. *)
Fixpoint groups_of (r : Re.re) : list (string * Re.re) :=
  match r with
  | Re.Group n r1 => (n, r1) :: groups_of r1
  | Re.Seq r1 r2 | Re.Alt r1 r2 => (groups_of r1 ++ groups_of r2)%list
  | Re.Opt r1 => groups_of r1
  | _ => []
  end.

(** What [mcpattern] asks of a name; the two separators [c4], [c5] side
    by side are those around the empty [name] group. *)
Definition mc_name_shape (s : chars) : Prop :=
  exists (year prodyear energy run tag suffix tail : chars)
         (c1 c2 c3 c4 c5 c6 : ascii),
    s = (txt "group" ++ year ++ c1 :: txt "perf-tau" ++ c2 :: txt "mc" ++
         prodyear ++ txt "_" ++ energy ++ txt "TeV" ++ c3 :: run ++
         c4 :: c5 :: tag ++ c6 :: suffix ++ tail)%list /\
    some is_digit year /\ some is_digit prodyear /\ some is_digit energy /\
    some is_digit run /\ some not_dot_char tag /\ some not_newline suffix /\
    Forall (fun c => not_newline c = true) [c1; c2; c3; c4; c5; c6] /\
    (tail = [] \/ tail = [nl]).

(** A recorded-data name written with dots, from its fields. *)
Definition dotted_name (year grp run stream tag version : chars)
    (ed : option chars) (size : string) : chars :=
  (txt "group" ++ year ++ "."%char :: grp ++ "."%char :: run ++
   "."%char :: stream ++ "."%char :: tag ++ "."%char :: version ++
   "."%char :: txt "D3PD" ++
   match ed with Some e => "."%char :: e | None => [] end ++
   txt "_StreamD3PD_Tau" ++ txt size)%list.

(** The groups [re.match] sets on such a name, latest first. *)
Definition dotted_groups (year grp run stream tag version : chars)
    (ed : option chars) (size : string) : list (string * string) :=
  (("size", size) ::
   match ed with
   | Some e => [("edition", string_of_list_ascii e)]
   | None => []
   end ++
   [ ("version", string_of_list_ascii version);
     ("tag", string_of_list_ascii tag);
     ("stream", string_of_list_ascii stream);
     ("run", string_of_list_ascii run);
     ("group", string_of_list_ascii grp);
     ("year", string_of_list_ascii year) ])%list.

(** [x] is the first success of [r] from [st]. *)
Definition starts (r : Re.re) (st x : Re.state) : Prop :=
  exists l, Re.run r st = x :: l.

(** The text [v] cannot prolong a run of [a]. *)
Definition stops (a : Re.atom) (v : chars) : Prop :=
  match v with
  | [] => True
  | c :: _ => Re.atom_ok a c = false
  end.

(** * Properties *)

Section ReFacts.
Import Re.

Lemma plus_run_sound a : forall s p g st',
  In st' (plus_run a p s g) ->
  exists u, s = (u ++ rest st')%list /\ pos st' = (p + length u)%nat /\
            u <> [] /\ Forall (fun c => atom_ok a c = true) u /\
            groups st' = g.
Proof.
  induction s as [|c t IH]; simpl; intros p g st' Hin; [contradiction|].
  destruct (atom_ok a c) eqn:Hc; [|contradiction].
  apply in_app_or in Hin as [Hin|Hin].
  - destruct (IH _ _ _ Hin) as (u & -> & Hp & _ & Hall & Hg).
    exists (c :: u). simpl. repeat split; auto; try lia; try discriminate.
  - destruct Hin as [<-|[]]. exists [c]. simpl.
    repeat split; auto; try lia; try discriminate.
Qed.

Lemma plus_run_complete a : forall u v p g,
  u <> [] -> Forall (fun c => atom_ok a c = true) u ->
  In (State (p + length u) v g) (plus_run a p (u ++ v)%list g).
Proof.
  induction u as [|c u IH]; intros v p g Hne Hall; [congruence|].
  inversion Hall as [|? ? Hc Hall']; subst. simpl. rewrite Hc.
  apply in_or_app. destruct u as [|c' u'].
  - right. left. simpl. f_equal. lia.
  - left. replace (p + S (length (c' :: u')))%nat
      with (S p + length (c' :: u'))%nat by lia.
    apply IH; [discriminate|assumption].
Qed.

Lemma run_sound : forall r st st',
  In st' (run r st) ->
  exists u, rest st = (u ++ rest st')%list /\
            pos st' = (pos st + length u)%nat /\
            den r (pos st =? 0)%nat u (rest st').
Proof.
  induction r as [|a|a|r1 IH1 r2 IH2|r1 IH1 r2 IH2|r1 IH1|n r1 IH1| |];
    simpl; intros st st' Hin.
  - destruct Hin as [<-|[]]. exists []. simpl. split; [reflexivity|]. split; [lia|reflexivity].
  - destruct (rest st) as [|c t] eqn:Hr; [contradiction|].
    destruct (atom_ok a c) eqn:Hc; [|contradiction].
    destruct Hin as [<-|[]]. exists [c]. simpl.
    split; [reflexivity|]. split; [lia|]. eauto.
  - apply plus_run_sound in Hin as (u & Hs & Hp & Hne & Hall & _). eauto.
  - apply in_flat_map in Hin as (st1 & H1 & H2).
    destruct (IH1 _ _ H1) as (u1 & Hr1 & Hp1 & Hd1).
    destruct (IH2 _ _ H2) as (u2 & Hr2 & Hp2 & Hd2).
    exists (u1 ++ u2)%list. rewrite Hr1, Hr2, Hp2, Hp1, length_app, <- app_assoc.
    split; [reflexivity|]. split; [lia|].
    exists u1, u2. split; [reflexivity|]. rewrite <- Hr2. split; [assumption|].
    replace (_ && _) with (pos st1 =? 0)%nat; [assumption|].
    rewrite Hp1. destruct u1 as [|c u1']; simpl.
    + rewrite andb_true_r, Nat.add_0_r. reflexivity.
    + rewrite andb_false_r. apply Nat.eqb_neq. lia.
  - apply in_app_or in Hin as [Hin|Hin].
    + destruct (IH1 _ _ Hin) as (u & ? & ? & ?). eauto.
    + destruct (IH2 _ _ Hin) as (u & ? & ? & ?). eauto.
  - apply in_app_or in Hin as [Hin|Hin].
    + destruct (IH1 _ _ Hin) as (u & ? & ? & ?). eauto.
    + destruct Hin as [<-|[]]. exists []. simpl. split; [reflexivity|].
      split; [lia|]. right; reflexivity.
  - apply in_map_iff in Hin as (st1 & <- & H1). simpl.
    destruct (IH1 _ _ H1) as (u & ? & ? & ?). eauto.
  - destruct (pos st =? 0)%nat eqn:E; [|contradiction].
    destruct Hin as [<-|[]]. exists [].
    split; [reflexivity|]. split; [simpl; lia|]. split; reflexivity.
  - destruct (at_eol (rest st)) eqn:E; [|contradiction].
    destruct Hin as [<-|[]]. exists []. simpl.
    split; [reflexivity|]. split; [lia|]. split; [reflexivity|assumption].
Qed.

Lemma run_complete : forall r st u v,
  rest st = (u ++ v)%list ->
  den r (pos st =? 0)%nat u v ->
  exists st', In st' (run r st) /\ rest st' = v /\
              pos st' = (pos st + length u)%nat.
Proof.
  induction r as [|a|a|r1 IH1 r2 IH2|r1 IH1 r2 IH2|r1 IH1|n r1 IH1| |];
    simpl; intros st u v Hr Hd.
  - subst u. exists st. simpl in *. repeat split; auto; lia.
  - destruct Hd as (c & -> & Hc). rewrite Hr. simpl. rewrite Hc.
    eexists. split; [left; reflexivity|]. simpl. split; [reflexivity|lia].
  - destruct Hd as [Hne Hall]. rewrite Hr.
    eexists. split; [apply plus_run_complete; eassumption|]. split; reflexivity.
  - destruct Hd as (u1 & u2 & -> & H1 & H2).
    rewrite <- app_assoc in Hr.
    destruct (IH1 _ _ _ Hr H1) as (st1 & Hin1 & Hr1 & Hp1).
    assert (E : (pos st1 =? 0)%nat = (pos st =? 0)%nat && is_nil u1).
    { rewrite Hp1. destruct u1 as [|c u1']; simpl.
      - rewrite andb_true_r, Nat.add_0_r. reflexivity.
      - rewrite andb_false_r. apply Nat.eqb_neq. lia. }
    rewrite <- E in H2.
    destruct (IH2 _ _ _ Hr1 H2) as (st2 & Hin2 & Hr2 & Hp2).
    exists st2. split; [apply in_flat_map; eauto|]. split; [assumption|].
    rewrite length_app. lia.
  - destruct Hd as [Hd|Hd].
    + destruct (IH1 _ _ _ Hr Hd) as (st' & ? & ? & ?).
      exists st'. split; [apply in_or_app; auto|auto].
    + destruct (IH2 _ _ _ Hr Hd) as (st' & ? & ? & ?).
      exists st'. split; [apply in_or_app; auto|auto].
  - destruct Hd as [Hd| ->].
    + destruct (IH1 _ _ _ Hr Hd) as (st' & ? & ? & ?).
      exists st'. split; [apply in_or_app; auto|auto].
    + exists st. split; [apply in_or_app; right; left; reflexivity|].
      simpl in *. split; [assumption|lia].
  - destruct (IH1 _ _ _ Hr Hd) as (st' & Hin & ? & ?).
    eexists. split; [apply in_map_iff; eexists; split; [reflexivity|exact Hin]|].
    simpl. auto.
  - destruct Hd as [-> E]. rewrite E. exists st.
    split; [left; reflexivity|]. simpl in *. split; [assumption|lia].
  - destruct Hd as [-> E]. simpl in Hr. rewrite Hr, E. exists st.
    split; [left; reflexivity|]. simpl. split; [assumption|lia].
Qed.

(** [re.match] succeeds exactly on the subjects with a prefix in the
    pattern's language. *)
Lemma rmatch_accepts r s :
  is_Some (rmatch r s) <->
  exists u v, list_ascii_of_string s = (u ++ v)%list /\ den r true u v.
Proof.
  unfold rmatch. split.
  - intros [g Hg].
    destruct (run r _) as [|st l] eqn:E; [discriminate|].
    assert (Hin : In st (run r (State 0 (list_ascii_of_string s) [])))
      by (rewrite E; left; reflexivity).
    apply run_sound in Hin as (u & Hr & _ & Hd). simpl in *. eauto.
  - intros (u & v & Hs & Hd).
    destruct (run_complete r (State 0 (list_ascii_of_string s) []) u v Hs Hd)
      as (st' & Hin & _).
    destruct (run r _) as [|st l]; [destruct Hin|]. eexists; reflexivity.
Qed.

Lemma group_app_bound n : forall new g,
  In n new.*1 -> is_Some (group (new ++ g)%list n).
Proof.
  induction new as [|[k v] new IH]; simpl; intros g Hin; [contradiction|].
  destruct (String.eqb k n) eqn:E; [eexists; reflexivity|].
  destruct Hin as [->|Hin]; [rewrite String.eqb_refl in E; discriminate|].
  apply IH, Hin.
Qed.

(** Groups are only added, and those of [binds] always are. *)
Lemma run_groups : forall r st st',
  In st' (run r st) ->
  exists new, groups st' = (new ++ groups st)%list /\
              forall n, In n (binds r) -> In n new.*1.
Proof.
  induction r as [|a|a|r1 IH1 r2 IH2|r1 IH1 r2 IH2|r1 IH1|n r1 IH1| |];
    simpl; intros st st' Hin.
  - destruct Hin as [<-|[]]. exists []. split; [reflexivity|intros ? []].
  - destruct (rest st) as [|c t]; [contradiction|].
    destruct (atom_ok a c); [|contradiction].
    destruct Hin as [<-|[]]. exists []. split; [reflexivity|intros ? []].
  - apply plus_run_sound in Hin as (u & _ & _ & _ & _ & ->).
    exists []. split; [reflexivity|intros ? []].
  - apply in_flat_map in Hin as (st1 & H1 & H2).
    destruct (IH1 _ _ H1) as (n1 & E1 & B1).
    destruct (IH2 _ _ H2) as (n2 & E2 & B2).
    exists (n2 ++ n1)%list. rewrite E2, E1, app_assoc. split; [reflexivity|].
    intros n Hn. rewrite fmap_app. apply in_or_app.
    apply in_app_or in Hn as [Hn|Hn]; auto.
  - apply in_app_or in Hin as [Hin|Hin].
    + destruct (IH1 _ _ Hin) as (new & ? & _). exists new. split; [assumption|intros ? []].
    + destruct (IH2 _ _ Hin) as (new & ? & _). exists new. split; [assumption|intros ? []].
  - apply in_app_or in Hin as [Hin|Hin].
    + destruct (IH1 _ _ Hin) as (new & ? & _). exists new. split; [assumption|intros ? []].
    + destruct Hin as [<-|[]]. exists []. split; [reflexivity|intros ? []].
  - apply in_map_iff in Hin as (st1 & <- & H1). simpl.
    destruct (IH1 _ _ H1) as (new & E & B).
    exists ((n, captured st st1) :: new). rewrite E. split; [reflexivity|].
    intros k [->|Hk]; simpl; auto.
  - destruct (pos st =? 0)%nat; [|contradiction].
    destruct Hin as [<-|[]]. exists []. split; [reflexivity|intros ? []].
  - destruct (at_eol (rest st)); [|contradiction].
    destruct Hin as [<-|[]]. exists []. split; [reflexivity|intros ? []].
Qed.

Lemma rmatch_binds r s g n :
  rmatch r s = Some g -> In n (binds r) -> is_Some (group g n).
Proof.
  unfold rmatch. intros Hm Hn.
  destruct (run r _) as [|st l] eqn:E; [discriminate|].
  injection Hm as <-.
  assert (Hin : In st (run r (State 0 (list_ascii_of_string s) [])))
    by (rewrite E; left; reflexivity).
  apply run_groups in Hin as (new & -> & B).
  apply group_app_bound, B, Hn.
Qed.

Lemma den_lit s : forall b u v, den (lit s) b u v <-> u = txt s.
Proof.
  induction s as [|c t IH]; simpl; intros b u v; [reflexivity|].
  split.
  - intros (u1 & u2 & -> & (d & -> & Hd) & H2).
    apply IH in H2 as ->. apply Ascii.eqb_eq in Hd as ->. reflexivity.
  - intros ->. exists [c], (txt t). split; [reflexivity|].
    split; [exists c; split; [reflexivity|apply Ascii.eqb_refl]|].
    apply IH. reflexivity.
Qed.

Lemma ok_digits c : atom_ok digits c = is_digit c.
Proof. unfold digits, is_digit. simpl. apply orb_false_r. Qed.

Lemma ok_not_dot c : atom_ok not_dot c = not_dot_char c.
Proof. destruct c as [[] [] [] [] [] [] [] []]; reflexivity. Qed.

Lemma ok_version c :
  atom_ok (Cls false [("0", "9"); ("-", "-")]%char) c = version_char c.
Proof. destruct c as [[] [] [] [] [] [] [] []]; reflexivity. Qed.

Lemma ok_dot c : atom_ok Dot c = not_newline c.
Proof. reflexivity. Qed.

Lemma some_atom a P u :
  (forall c, atom_ok a c = P c) ->
  (u <> [] /\ Forall (fun c => atom_ok a c = true) u) <-> some P u.
Proof.
  intros E. unfold some.
  split; intros [Hne Hall]; (split; [assumption|]);
    eapply Forall_impl; try eassumption; simpl; intros c Hc;
    [rewrite <- E|rewrite E]; assumption.
Qed.

Lemma at_eol_cases v : at_eol v = true <-> v = [] \/ v = [nl].
Proof.
  destruct v as [|c [|d v']]; simpl.
  - tauto.
  - rewrite Ascii.eqb_eq. split; [intros ->; auto|intros [|]; congruence].
  - split; [discriminate|intros [|]; discriminate].
Qed.

Ltac open_seq H :=
  let u1 := fresh "u" in
  let u2 := fresh "w" in
  let H1 := fresh "P" in
  cbn [den seqs] in H; destruct H as (u1 & u2 & -> & H1 & H).

Lemma datapattern_den u v :
  den datapattern true u v ->
  data_name_shape (u ++ v)%list.
Proof.
  unfold datapattern. intros H.
  do 18 (open_seq H). cbn [den seqs] in H. subst.
  destruct P as [-> _].
  apply den_lit in P0 as ->.
  apply (some_atom _ _ _ ok_digits) in P1.
  destruct P2 as (c1 & -> & Hc1).
  apply (some_atom _ _ _ ok_not_dot) in P3.
  destruct P4 as (c2 & -> & Hc2).
  apply (some_atom _ _ _ ok_digits) in P5.
  destruct P6 as (c3 & -> & Hc3).
  apply (some_atom _ _ _ ok_not_dot) in P7.
  destruct P8 as (c4 & -> & Hc4).
  apply (some_atom _ _ _ ok_not_dot) in P9.
  destruct P10 as (c5 & -> & Hc5).
  apply (some_atom _ _ _ ok_version) in P11.
  destruct P12 as (c6 & -> & Hc6).
  apply den_lit in P13 as ->.
  apply den_lit in P15 as ->.
  exists u1, u3, u5, u7, u9, u11, u14, u16, v, c1, c2, c3, c4, c5, c6.
  split; [repeat (simpl; rewrite <- ?app_assoc); rewrite ?app_nil_r; reflexivity|].
  do 6 (split; [assumption|]).
  split; [repeat constructor; assumption|].
  split.
  - destruct P14 as [(x & y & -> & (c7 & -> & Hc7) & Hy)| ->]; [right|left; reflexivity].
    exists c7, y. split; [reflexivity|]. split; [assumption|].
    cbn [den] in Hy. apply (some_atom _ _ _ ok_digits) in Hy. assumption.
  - cbn [den] in P16.
    destruct P16 as [(x & y & -> & Hx & -> & He)|(x & y & -> & Hx & -> & He)];
      apply den_lit in Hx as ->; rewrite app_nil_r in *;
      (split; [auto|apply at_eol_cases; assumption]).
Qed.

Ltac piece x :=
  cbn [den seqs]; eexists x, _; split; [reflexivity|split].

Lemma shape_den s :
  data_name_shape s ->
  exists u v, s = (u ++ v)%list /\ den datapattern true u v.
Proof.
  intros (year & grp & rn & stream & tag & version & ed & size & tail &
          c1 & c2 & c3 & c4 & c5 & c6 & -> & Hy & Hg & Hr & Hs & Ht & Hv &
          Hc & He & Hz & Htail).
  inversion Hc as [|? ? Hc1 Hc']; subst.
  inversion Hc' as [|? ? Hc2 Hc'']; subst.
  inversion Hc'' as [|? ? Hc3 Hc3']; subst.
  inversion Hc3' as [|? ? Hc4 Hc4']; subst.
  inversion Hc4' as [|? ? Hc5 Hc5']; subst.
  inversion Hc5' as [|? ? Hc6 _]; subst.
  exists ([] ++ txt "group" ++ year ++ [c1] ++ grp ++ [c2] ++ rn ++ [c3] ++
          stream ++ [c4] ++ tag ++ [c5] ++ version ++ [c6] ++ txt "D3PD" ++
          ed ++ txt "_StreamD3PD_Tau" ++ size ++ [])%list, tail.
  split; [repeat (simpl; rewrite <- ?app_assoc); reflexivity|].
  unfold datapattern.
  piece (@nil ascii); [split; reflexivity|].
  piece (txt "group"); [apply den_lit; reflexivity|].
  piece year; [apply (some_atom _ _ _ ok_digits), Hy|].
  piece [c1]; [exists c1; auto|].
  piece grp; [apply (some_atom _ _ _ ok_not_dot), Hg|].
  piece [c2]; [exists c2; auto|].
  piece rn; [apply (some_atom _ _ _ ok_digits), Hr|].
  piece [c3]; [exists c3; auto|].
  piece stream; [apply (some_atom _ _ _ ok_not_dot), Hs|].
  piece [c4]; [exists c4; auto|].
  piece tag; [apply (some_atom _ _ _ ok_not_dot), Ht|].
  piece [c5]; [exists c5; auto|].
  piece version; [apply (some_atom _ _ _ ok_version), Hv|].
  piece [c6]; [exists c6; auto|].
  piece (txt "D3PD"); [apply den_lit; reflexivity|].
  piece ed.
  { destruct He as [->|(c7 & e & -> & Hc7 & He)]; [right; reflexivity|left].
    exists [c7], e. split; [reflexivity|]. split; [exists c7; auto|].
    cbn [den]. apply (some_atom _ _ _ ok_digits), He. }
  piece (txt "_StreamD3PD_Tau"); [apply den_lit; reflexivity|].
  piece size; [|cbn [den seqs]; reflexivity].
  cbn [den]. apply at_eol_cases in Htail.
  destruct Hz as [->| ->]; [left|right];
    (eexists _, []; split; [symmetry; apply app_nil_r|];
     split; [apply den_lit; reflexivity|split; [reflexivity|exact Htail]]).
Qed.

End ReFacts.

(** ** The naming grammar *)

(** C4, as amended: a basename is accepted by [datapattern] if and only if
    it reads group<year>?<group>?<run>?<stream>?<tag>?<version>?D3PD
    followed by an optional ?<edition>, the literal _StreamD3PD_Tau and
    SMALL or MEDIUM, where each ? is any one character other than a
    newline, and nothing follows the size but possibly one final
    newline. *)
Theorem datapattern_accepts (basename : string) :
  is_Some (Re.rmatch datapattern basename) <-> data_name_shape (txt basename).
Proof.
  rewrite rmatch_accepts. split.
  - intros (u & v & E & H). unfold txt. rewrite E.
    apply datapattern_den, H.
  - apply shape_den.
Qed.

(** C4, as stated, fails both ways: a name that follows the template of
    the specification is rejected, for want of the underscore before
    [Tau], and a name with other separators than dots is accepted. *)
Lemma datapattern_not_as_claimed :
  is_Some (Re.rmatch claimed_datapattern Names.as_claimed) /\
  Re.rmatch datapattern Names.as_claimed = None /\
  Re.rmatch claimed_datapattern Names.underscored = None /\
  is_Some (Re.rmatch datapattern Names.underscored).
Proof.
  split; [vm_compute; eexists; reflexivity|].
  split; [vm_compute; reflexivity|].
  split; [vm_compute; reflexivity|].
  vm_compute; eexists; reflexivity.
Qed.

(** ** The dictionary of runs *)

Section DictFacts.
Import Dict.

Lemma get_set_eq d k v : get (set d k v) k = Some v.
Proof.
  induction d as [|[k' v'] d IH]; simpl.
  - rewrite Z.eqb_refl. reflexivity.
  - destruct (k' =? k) eqn:E; simpl; rewrite E; auto.
Qed.

Lemma get_set_ne d k k' v : k <> k' -> get (set d k v) k' = get d k'.
Proof.
  intros Hne. induction d as [|[k0 v0] d IH]; simpl.
  - destruct (k =? k') eqn:E; [apply Z.eqb_eq in E; congruence|reflexivity].
  - destruct (k0 =? k) eqn:E; simpl.
    + apply Z.eqb_eq in E. subst k0.
      destruct (k =? k') eqn:E2; [apply Z.eqb_eq in E2; congruence|reflexivity].
    + destruct (k0 =? k'); auto.
Qed.

Lemma get_keys d k : is_Some (get d k) <-> In k (keys d).
Proof.
  induction d as [|[k0 v0] d IH]; simpl.
  - split; [intros [? [=]]|intros []].
  - destruct (k0 =? k) eqn:E.
    + apply Z.eqb_eq in E. split; eauto.
    + rewrite IH. apply Z.eqb_neq in E. tauto.
Qed.

Lemma keys_set d k v x : In x (keys (set d k v)) <-> In x (keys d) \/ x = k.
Proof.
  induction d as [|[k0 v0] d IH]; simpl.
  - split; [intros [<-|[]]; auto|intros [[]| ->]; auto].
  - destruct (k0 =? k) eqn:E; simpl.
    + apply Z.eqb_eq in E. subst k0. split; [tauto|]. intros [H| ->]; auto.
    + rewrite IH. tauto.
Qed.

Lemma keys_set_NoDup d k v : List.NoDup (keys d) -> List.NoDup (keys (set d k v)).
Proof.
  induction d as [|[k0 v0] d IH]; simpl; intros H.
  - constructor; [intros []|constructor].
  - destruct (k0 =? k) eqn:E; simpl; [exact H|].
    apply Z.eqb_neq in E. inversion H as [|? ? Hno Hd]; subst.
    constructor; [|auto].
    intros Hin. apply keys_set in Hin as [Hin| ->]; [auto|congruence].
Qed.

(** [items] lists the entries of the dictionary, each once, whatever
    order the interpreter takes. *)
Lemma items_get w d k v : In (k, v) (items w d) <-> get d k = Some v.
Proof.
  unfold items. rewrite in_flat_map. split.
  - intros (x & _ & Hin).
    destruct (get d x) eqn:E; simpl in Hin; [|destruct Hin].
    destruct Hin as [Hin|[]]. injection Hin as <- <-. exact E.
  - intros H. exists k. split.
    + apply (Permutation_in _ (Permutation_sym (int_order_perm w _))).
      apply get_keys. eauto.
    + rewrite H. left. reflexivity.
Qed.

Lemma items_keys_NoDup w d : List.NoDup (keys d) -> List.NoDup (map fst (items w d)).
Proof.
  intros H. unfold items.
  assert (Hn : List.NoDup (int_order w (keys d)))
    by (apply (Permutation_NoDup (Permutation_sym (int_order_perm w _))), H).
  set (f := fun k => match get d k with Some v => [(k, v)] | None => [] end).
  assert (Hin : forall l x, In x (map fst (flat_map f l)) -> In x l).
  { induction l as [|k l IH]; simpl; [auto|]. intros x.
    rewrite map_app, in_app_iff. unfold f at 1.
    destruct (get d k); simpl; intuition. }
  induction Hn as [|k l Hk Hl IH]; simpl; [constructor|].
  rewrite map_app. unfold f at 1.
  destruct (get d k); simpl; [|exact IH].
  constructor; [|exact IH]. intros Hx. apply Hk, Hin, Hx.
Qed.



End DictFacts.

(** ** The loop over the directories *)

Lemma datapattern_sets_run s g :
  Re.rmatch datapattern s = Some g -> is_Some (Re.group g "run").
Proof.
  intros H. apply (rmatch_binds _ _ _ _ H).
  vm_compute. tauto.
Qed.

(** The loop never raises: [int] always gets the digits of a run. *)
Lemma data_loop_no_raise periods : forall dirs runs log e log',
  data_loop periods dirs runs log <> Raised e log'.
Proof.
  induction dirs as [|d more IH]; intros runs log e log'; simpl; [discriminate|].
  destruct (Re.rmatch datapattern (Path.basename d)) as [g|] eqn:Hm; [|apply IH].
  destruct (datapattern_sets_run _ _ Hm) as [r ->].
  destruct (match periods with Some ps => _ | None => _ end);
    [discriminate| |apply IH].
  destruct (record_run _ _ _ _ _ _). apply IH.
Qed.


Lemma types_DATA : types !! "DATA" = Some 0.
Proof. reflexivity. Qed.

Arguments Path.join : simpl never.
Arguments GlobFs.glob : simpl never.
Arguments Re.rmatch : simpl never.

(** Enter [get_sample] past the layout checks and the [try] block. *)
Ltac use_meta Hm :=
  unfold sample_meta in Hm; unfold get_sample;
  destruct (isdir _ _); [|cbn [andb] in Hm; discriminate Hm];
  destruct (isfile _ _); [|cbn [andb] in Hm; discriminate Hm];
  cbn [andb negb] in Hm |- *; rewrite Hm.

(** ** The classifier *)

(** C1, on the code: when the metadata parses and the class is known but
    the upper-cased type is in no entry of [types], line 75 raises
    [KeyError] after the diagnostic, which names the type and lists the
    two keys of [types] in the order the interpreter gives them; nothing
    is returned. *)
Theorem unknown_type_raises w name periods dt cn wt tn ct :
  sample_meta w name periods = Some (dt, cn, wt, tn) ->
  classes !! cn = Some ct ->
  types !! dt = None ->
  exists keys,
    get_sample w name periods =
      (Raise (KeyError dt),
       ("Datatype " ++ dt ++ " is not defined!") ::
       "Use one of these:" :: keys) /\
    Permutation keys ["DATA"; "MC"].
Proof.
  intros Hm Hc Ht. use_meta Hm. rewrite Hc, Ht.
  exists (table_keys w types_items). split; [reflexivity|].
  apply (str_order_perm w).
Qed.

Lemma unknown_type_raises_witness :
  exists keys,
    get_sample (Example.data_world "foo" "1") "samp" None =
      (Raise (KeyError "FOO"),
       ("Datatype " ++ "FOO" ++ " is not defined!") ::
       "Use one of these:" :: keys) /\
    Permutation keys ["DATA"; "MC"].
Proof.
  apply (unknown_type_raises _ _ _ "FOO" "SIGNAL"
           (S754_finite false 4503599627370496 (-52)) "tau" 1);
    vm_compute; reflexivity.
Defined.

(** On an interpreter that lists the keys as CPython 2 does, DATA before
    MC, these are the lines printed before the exception. *)
Example unknown_type_lines :
  get_sample (Example.data_world "foo" "1") "samp" None =
    (Raise (KeyError "FOO"),
     ["Datatype FOO is not defined!"; "Use one of these:"; "DATA"; "MC"]).
Proof. vm_compute. reflexivity. Qed.

(** C9: a returned Sample carries the codes of the two tables. *)
Theorem codes_from_tables w name periods d log :
  get_sample w name periods = (Return (Some d), log) ->
  (exists key, classes !! key = Some (classtype d)) /\
  (exists key, types !! key = Some (datatype d)).
Proof.
  unfold get_sample. intros H.
  destruct (negb _); [discriminate|].
  destruct (negb _); [discriminate|].
  destruct (parse_metadata _ _) as [[[[dt cn] wt] tn]|]; [|discriminate].
  destruct (classes !! cn) as [ct|] eqn:Hc; [|discriminate].
  destruct (types !! dt) as [code|] eqn:Ht; [|discriminate].
  rewrite types_DATA in H.
  destruct (code =? 0).
  - destruct (data_loop _ _ _ _); try discriminate.
    injection H as <- _. simpl. eauto.
  - injection H as <- _. simpl. eauto.
Qed.

Lemma codes_from_tables_witness :
  (exists key, classes !! key = Some 1) /\ (exists key, types !! key = Some 1).
Proof.
  eapply (codes_from_tables (Example.data_world "mc" "1") "samp" None
            (mkDataset "samp" 1 1 "tau" _ _)).
  vm_compute. reflexivity.
Defined.

(** ** The period filter *)

(** C2, as amended: the name of a DATA sample resolved with a non-empty
    period filter is the input name, an underscore, and the labels
    concatenated in the order given. *)
Theorem period_suffix w sample periods d log :
  periods <> [] ->
  get_sample w sample (Some periods) = (Return (Some d), log) ->
  types !! "DATA" = Some (datatype d) ->
  name d = sample ++ "_" ++ String.concat "" periods.
Proof.
  unfold get_sample. intros Hne H Hd.
  destruct (negb _); [discriminate|].
  destruct (negb _); [discriminate|].
  destruct (parse_metadata _ _) as [[[[dt cn] wt] tn]|]; [|discriminate].
  destruct (classes !! cn) as [ct|]; [|discriminate].
  destruct (types !! dt) as [code|]; [|discriminate].
  rewrite types_DATA in H, Hd.
  destruct (code =? 0) eqn:E.
  - destruct (data_loop _ _ _ _); try discriminate.
    injection H as <- _. destruct periods; [congruence|reflexivity].
  - injection H as <- _. simpl in Hd. injection Hd as <-. discriminate.
Qed.

Lemma period_suffix_witness :
  "samp_AB" = "samp" ++ "_" ++ String.concat "" ["AB"].
Proof.
  refine (period_suffix (Example.data_world "data" "1") "samp" ["AB"]
            (mkDataset "samp_AB" 0 1 "tau"
               (S754_finite false 4503599627370496 (-52))
               ["/data/samp/" ++ Example.run153000 ++ "/a.root"]) [] _ _ _);
    [discriminate|vm_compute; reflexivity|reflexivity].
Defined.

(** C2, as stated, fails: with the filter [AB] the name is [samp_AB],
    not [sampAB]. *)
Lemma period_suffix_not_bare :
  exists d log,
    get_sample (Example.data_world "data" "1") "samp" (Some ["AB"]) =
      (Return (Some d), log) /\
    types !! "DATA" = Some (datatype d) /\
    name d = "samp_AB" /\
    name d <> "samp" ++ String.concat "" ["AB"].
Proof.
  eexists _, _. split; [vm_compute; reflexivity|].
  split; [reflexivity|]. split; [reflexivity|]. vm_compute. discriminate.
Qed.



Lemma scan_undefined runnumber p : forall periods,
  scan_periods runnumber periods = Undefined p <->
  meets_undefined runnumber periods p.
Proof.
  unfold meets_undefined. induction periods as [|q more IH]; simpl.
  - split; [discriminate|]. intros (b & a & E & _). destruct b; discriminate.
  - destruct (data_periods !! q) as [r|] eqn:Hq.
    + destruct (in_xrange runnumber r) eqn:Hr.
      * split; [discriminate|]. intros (b & a & E & Hp & Hb).
        destruct b as [|q' b]; simpl in E; injection E as -> ->; [congruence|].
        inversion Hb as [|? ? (r' & Hq' & Hr') _]; subst. congruence.
      * rewrite IH. split.
        -- intros (b & a & -> & Hp & Hb). exists (q :: b), a.
           split; [reflexivity|]. split; [assumption|]. constructor; eauto.
        -- intros (b & a & E & Hp & Hb).
           destruct b as [|q' b]; simpl in E; injection E as -> ->; [congruence|].
           inversion Hb; subst. eauto.
    + split.
      * intros [= <-]. exists [], more. auto.
      * intros (b & a & E & Hp & Hb).
        destruct b as [|q' b]; simpl in E; injection E as -> ->; [reflexivity|].
        inversion Hb as [|? ? (r' & Hq' & _) _]; subst. congruence.
Qed.

(** The loop returns [None] exactly when some directory of the list
    matches the grammar and its scan of the labels meets an undefined
    one; the last line printed names such a label. *)
Lemma data_loop_aborts periods : forall dirs runs log,
  (exists log', data_loop (Some periods) dirs runs log = ReturnedNone log') <->
  (exists d g r p, In d dirs /\
     Re.rmatch datapattern (Path.basename d) = Some g /\
     Re.group g "run" = Some r /\
     scan_periods (py_int r) periods = Undefined p).
Proof.
  induction dirs as [|d more IH]; intros runs log; simpl.
  - split; [intros [? [=]]|intros (? & ? & ? & ? & [] & _)].
  - destruct (Re.rmatch datapattern (Path.basename d)) as [g|] eqn:Hm.
    + destruct (datapattern_sets_run _ _ Hm) as [r Hr]. rewrite Hr.
      destruct (scan_periods (py_int r) periods) as [p| |] eqn:Hs.
      * split; [|eauto]. intros _. exists d, g, r, p. auto.
      * destruct (record_run _ _ _ _ _ _) as [runs' log1]. rewrite IH.
        split; intros (d' & g' & r' & p' & Hin & Hm' & Hr' & Hs').
        -- exists d', g', r', p'. auto.
        -- destruct Hin as [<-|Hin]; [|exists d', g', r', p'; auto].
           congruence.
      * rewrite IH.
        split; intros (d' & g' & r' & p' & Hin & Hm' & Hr' & Hs').
        -- exists d', g', r', p'. auto.
        -- destruct Hin as [<-|Hin]; [|exists d', g', r', p'; auto].
           congruence.
    + rewrite IH.
      split; intros (d' & g' & r' & p' & Hin & Hm' & Hr' & Hs').
      * exists d', g', r', p'. auto.
      * destruct Hin as [<-|Hin]; [|exists d', g', r', p'; auto].
        congruence.
Qed.

Lemma data_loop_abort_line periods : forall dirs runs log log',
  data_loop (Some periods) dirs runs log = ReturnedNone log' ->
  exists p, In p periods /\ data_periods !! p = None /\
            last log' = Some ("Period " ++ p ++ " is not defined!").
Proof.
  induction dirs as [|d more IH]; intros runs log log'; simpl; [discriminate|].
  destruct (Re.rmatch datapattern (Path.basename d)) as [g|]; [|apply IH].
  destruct (Re.group g "run") as [r|]; [|discriminate].
  destruct (scan_periods (py_int r) periods) as [p| |] eqn:Hs.
  - intros [= <-]. exists p.
    apply scan_undefined in Hs as (b & a & -> & Hp & _).
    split; [apply in_or_app; right; left; reflexivity|].
    split; [assumption|]. unfold say. apply last_snoc.
  - destruct (record_run _ _ _ _ _ _). apply IH.
  - apply IH.
Qed.

(** C3, as amended: with a period filter, the resolution of a DATA
    sample returns absent exactly when some candidate directory matches
    the grammar and, going through the labels in the order given, a label
    absent from the period table is met before any label whose range
    holds the directory's run number; the last diagnostic then names an
    absent label.  Labels behind a matching one, and all labels when no
    directory matches, are not looked up. *)
Theorem period_abort w sample periods cn wt tn ct :
  sample_meta w sample (Some periods) = Some ("DATA", cn, wt, tn) ->
  classes !! cn = Some ct ->
  ((exists log, get_sample w sample (Some periods) = (Return None, log)) <->
   (exists d g r p, In d (actualdirs w sample) /\
      Re.rmatch datapattern (Path.basename d) = Some g /\
      Re.group g "run" = Some r /\
      meets_undefined (py_int r) periods p)) /\
  (forall log, get_sample w sample (Some periods) = (Return None, log) ->
     exists p, In p periods /\ data_periods !! p = None /\
               last log = Some ("Period " ++ p ++ " is not defined!")).
Proof.
  intros Hm Hc. unfold actualdirs. use_meta Hm. rewrite Hc.
  change (types !! "DATA") with (Some 0). cbn [Z.eqb].
  set (dirs := List.filter _ _).
  pose proof (data_loop_aborts periods dirs [] []) as Hab.
  pose proof (data_loop_abort_line periods dirs [] []) as Hline.
  destruct (data_loop (Some periods) dirs [] []) as [runs l|l|e l] eqn:Hl.
  - split; [|intros ? [=]]. split; [intros [? [=]]|].
    intros (d & g & r & p & Hin & Hg & Hr & Hs).
    apply scan_undefined in Hs.
    destruct (proj2 Hab) as [? [=]]. eauto 8.
  - split.
    + split; [|eauto]. intros _.
      destruct (proj1 Hab) as (d & g & r & p & Hin & Hg & Hr & Hs); [eauto|].
      apply scan_undefined in Hs. eauto 8.
    + intros log [= <-]. eauto.
  - exfalso. eapply data_loop_no_raise, Hl.
Qed.

Lemma period_abort_witness :
  exists log,
    get_sample (Example.data_world "data" "1") "samp" (Some ["E"; "ZZ"]) =
      (Return None, log).
Proof.
  apply (proj1 (period_abort (Example.data_world "data" "1") "samp"
                  ["E"; "ZZ"] "SIGNAL"
                  (S754_finite false 4503599627370496 (-52)) "tau" 1
                  eq_refl eq_refl)).
  exists ("/data/samp/" ++ Example.run153000),
         [("size", "SMALL"); ("version", "01-01"); ("tag", "r1");
          ("stream", "physics"); ("run", "00153000");
          ("group", "perf-tau"); ("year", "10")],
         "00153000", "ZZ".
  split; [vm_compute; auto|]. split; [vm_compute; reflexivity|].
  split; [reflexivity|].
  exists ["E"], []. split; [reflexivity|]. split; [reflexivity|].
  constructor; [|constructor]. eexists. split; reflexivity.
Defined.

(** C3, as stated, fails: the label [ZZ] is in no entry of the period
    table, yet with the filter [AB], [ZZ] a Sample is returned: the run
    lies in AB and the scan stops there. *)
Lemma unknown_label_unnoticed :
  In "ZZ" ["AB"; "ZZ"] /\ data_periods !! "ZZ" = None /\
  types !! "DATA" = Some 0 /\
  exists d,
    get_sample Example2.one_run "samp" (Some ["AB"; "ZZ"]) =
      (Return (Some d), []) /\
    datatype d = 0 /\ name d = "samp_ABZZ".
Proof.
  split; [simpl; auto|]. split; [reflexivity|]. split; [reflexivity|].
  eexists. split; [vm_compute; reflexivity|]. split; reflexivity.
Qed.

(** ** Editions of a run *)

Lemma kept_verdict periods r :
  kept periods r <->
  match periods with
  | Some ps => scan_periods r ps
  | None => InPeriod
  end = InPeriod.
Proof. destruct periods; simpl; [reflexivity|tauto]. Qed.



(** With the filter AB, editions 0 then 2: the files are those of the
    second directory, under the name with the suffix. *)
Example later_edition_kept :
  get_sample Example2.two_editions "samp" (Some ["AB"]) =
    (Return (Some (mkDataset "samp_AB" 0 1 "tau"
                     (S754_finite false 4503599627370496 (-52))
                     ["/data/samp/" ++ Example.run153000_ed2 ++ "/new.root"])),
     ["Warning: multiple editions of dataset " ++ Example.run153000_ed2 ++
      " exist!"]).
Proof. vm_compute. reflexivity. Qed.

(** What the loop leaves in the map for a run: either the entry it
    started with, no directory of the run having a greater edition, or
    the first of the directories of the run with the greatest edition,
    greater than the edition it started with. *)
Lemma data_loop_invariant periods : forall dirs runs log runs' log',
  data_loop periods dirs runs log = Finished runs' log' ->
  forall r e, Dict.get runs' r = Some e ->
    (Dict.get runs r = Some e /\
     forall d ed, In d dirs -> names_run periods d r ed -> ed <= edition e) \/
    (exists before after,
       dirs = (before ++ dir e :: after)%list /\
       names_run periods (dir e) r (edition e) /\
       (forall stored, Dict.get runs r = Some stored -> edition stored < edition e) /\
       (forall d ed, In d before -> names_run periods d r ed -> ed < edition e) /\
       (forall d ed, In d after -> names_run periods d r ed -> ed <= edition e)).
Proof.
  induction dirs as [|d more IH]; intros runs log runs' log' H r e He.
  { injection H as <- _. left. split; [exact He|]. intros ? ? []. }
  cbn [data_loop] in H.
  assert (Skip : forall log0,
    data_loop periods more runs log0 = Finished runs' log' ->
    (forall ed, ~ names_run periods d r ed) ->
    (Dict.get runs r = Some e /\
     forall d0 ed, In d0 (d :: more) -> names_run periods d0 r ed ->
                   ed <= edition e) \/
    (exists before after,
       d :: more = (before ++ dir e :: after)%list /\
       names_run periods (dir e) r (edition e) /\
       (forall stored, Dict.get runs r = Some stored -> edition stored < edition e) /\
       (forall d0 ed, In d0 before -> names_run periods d0 r ed ->
                      ed < edition e) /\
       (forall d0 ed, In d0 after -> names_run periods d0 r ed ->
                      ed <= edition e))).
  { intros log0 H0 Hno.
    destruct (IH _ _ _ _ H0 r e He)
      as [[Hr Hle]|(b & a & -> & Hn & Hs & Hb & Ha)].
    - left. split; [exact Hr|].
      intros d0 ed [<-|Hin] Hd0; [destruct (Hno _ Hd0)|eauto].
    - right. exists (d :: b), a. split; [reflexivity|].
      split; [exact Hn|]. split; [exact Hs|]. split; [|exact Ha].
      intros d0 ed [<-|Hin] Hd0; [destruct (Hno _ Hd0)|eauto]. }
  destruct (Re.rmatch datapattern (Path.basename d)) as [g|] eqn:Hm.
  2:{ apply (Skip _ H). intros ed (g' & s' & Hm' & _). congruence. }
  destruct (Re.group g "run") as [s|] eqn:Hs; [|discriminate].
  destruct (match periods with Some ps => _ | None => _ end) eqn:Hv;
    [discriminate| |].
  2:{ apply (Skip _ H). intros ed (g' & s' & Hm' & Hs' & <- & _ & Hk).
      assert (g' = g) as -> by congruence.
      assert (s' = s) as -> by congruence.
      apply kept_verdict in Hk. congruence. }
  assert (Hd : names_run periods d (py_int s) (edition_of g)).
  { exists g, s. repeat split; auto. apply kept_verdict, Hv. }
  assert (Only : forall r0 ed, names_run periods d r0 ed ->
                               r0 = py_int s /\ ed = edition_of g).
  { intros r0 ed (g' & s' & Hm' & Hs' & <- & <- & _).
    assert (g' = g) as -> by congruence.
    assert (s' = s) as -> by congruence. auto. }
  destruct (record_run _ _ _ _ _ _) as [runs1 log1] eqn:Hrec.
  unfold record_run in Hrec.
  destruct (IH _ _ _ _ H r e He)
    as [[Hr Hle]|(b & a & -> & Hn & Hst & Hb & Ha)].
  - (* the entry is the one the rest of the loop started with *)
    destruct (Dict.get runs (py_int s)) as [stored|] eqn:Hold.
    + destruct (edition stored <? edition_of g) eqn:Hlt;
        injection Hrec as <- <-.
      * destruct (decide (r = py_int s)) as [->|Hne].
        -- rewrite get_set_eq in Hr. injection Hr as <-.
           right. exists [], more. split; [reflexivity|].
           split; [exact Hd|]. split; [|split; [intros ? ? []|exact Hle]].
           intros stored' Hs'. rewrite Hold in Hs'. injection Hs' as <-.
           apply Z.ltb_lt, Hlt.
        -- rewrite get_set_ne in Hr by congruence.
           left. split; [exact Hr|].
           intros d0 ed [<-|Hin] Hd0; [|eauto].
           destruct (Only _ _ Hd0). congruence.
      * left. split; [exact Hr|].
        intros d0 ed [<-|Hin] Hd0; [|eauto].
        destruct (Only _ _ Hd0) as [-> ->].
        rewrite Hold in Hr. injection Hr as <-.
        apply Z.ltb_ge, Hlt.
    + injection Hrec as <- <-.
      destruct (decide (r = py_int s)) as [->|Hne].
      * rewrite get_set_eq in Hr. injection Hr as <-.
        right. exists [], more. split; [reflexivity|].
        split; [exact Hd|]. split; [|split; [intros ? ? []|exact Hle]].
        intros stored' Hs'. congruence.
      * rewrite get_set_ne in Hr by congruence.
        left. split; [exact Hr|].
        intros d0 ed [<-|Hin] Hd0; [|eauto].
        destruct (Only _ _ Hd0). congruence.
  - (* the entry comes from a later directory *)
    right. exists (d :: b), a. split; [reflexivity|].
    split; [exact Hn|]. split; [|split; [|exact Ha]].
    + intros stored Hs0.
      destruct (Dict.get runs (py_int s)) as [old|] eqn:Hold.
      * destruct (edition old <? edition_of g) eqn:Hlt;
          injection Hrec as <- <-.
        -- destruct (decide (r = py_int s)) as [->|Hne].
           ++ specialize (Hst _ (get_set_eq _ _ _)). simpl in Hst.
              assert (stored = old) as -> by congruence.
              apply Z.ltb_lt in Hlt. lia.
           ++ apply Hst. rewrite get_set_ne by congruence. exact Hs0.
        -- apply Hst, Hs0.
      * injection Hrec as <- <-.
        destruct (decide (r = py_int s)) as [->|Hne]; [congruence|].
        apply Hst. rewrite get_set_ne by congruence. exact Hs0.
    + intros d0 ed [<-|Hin] Hd0; [|eauto].
      destruct (Only _ _ Hd0) as [-> ->].
      destruct (Dict.get runs (py_int s)) as [old|] eqn:Hold.
      * destruct (edition old <? edition_of g) eqn:Hlt;
          injection Hrec as <- <-.
        -- apply (Hst _ (get_set_eq _ _ _)).
        -- specialize (Hst _ Hold). apply Z.ltb_ge in Hlt. lia.
      * injection Hrec as <- <-. apply (Hst _ (get_set_eq _ _ _)).
Qed.


(** The two cases of the specification: editions 0 then 2 give the files
    of the second directory. *)
Example later_edition_wins :
  get_sample Example2.two_editions "samp" None =
    (Return (Some (mkDataset "samp" 0 1 "tau"
                     (S754_finite false 4503599627370496 (-52))
                     ["/data/samp/" ++ Example.run153000_ed2 ++ "/new.root"])),
     ["Warning: multiple editions of dataset " ++ Example.run153000_ed2 ++
      " exist!"]).
Proof. vm_compute. reflexivity. Qed.

Example first_seen_kept_on_tie :
  let d1 := "/data/samp/" ++ Example.run153000_ed2 in
  let d2 := "/data/samp/group10.perf-tau.00153000.physics.r2.01-01.D3PD.2_StreamD3PD_TauSMALL" in
  exists log,
    data_loop None [d1; d2] [] [] = Finished [(153000, RunEntry 2 d1)] log.
Proof. eexists. vm_compute. reflexivity. Qed.

(** ** The metadata *)

Lemma parse_metadata_some w nm ps mf dt cn wt tn :
  parse_metadata w nm ps mf = Some (dt, cn, wt, tn) ->
  exists doc meta0 more t c wtxt tr,
    xml_parse w mf = Some doc /\
    Dom.getElementsByTagName "meta" doc = meta0 :: more /\
    field meta0 "type" = Some (Some t) /\ dt = upper t /\
    field meta0 "class" = Some (Some c) /\ cn = upper c /\
    field meta0 "weight" = Some wtxt /\
    eval_weight w nm ps (py_str wtxt) = Some wt /\
    field meta0 "tree" = Some tr /\ tn = py_str tr.
Proof.
  unfold parse_metadata. intros H.
  destruct (xml_parse w mf) as [doc|] eqn:E1; [|discriminate].
  cbn [mbind option_bind] in H.
  destruct (Dom.getElementsByTagName "meta" doc) as [|meta0 more] eqn:E2;
    cbn [head mbind option_bind] in H; [discriminate|].
  destruct (field meta0 "type") as [[t|]|] eqn:E3;
    cbn [fmap option_fmap option_map mbind option_bind] in H;
    try discriminate.
  destruct (field meta0 "class") as [[c|]|] eqn:E4;
    cbn [fmap option_fmap option_map mbind option_bind] in H;
    try discriminate.
  destruct (field meta0 "weight") as [wtxt|] eqn:E5;
    cbn [mbind option_bind] in H; try discriminate.
  destruct (eval_weight w nm ps (py_str wtxt)) as [x|] eqn:E6;
    cbn [mbind option_bind] in H; try discriminate.
  destruct (field meta0 "tree") as [tr|] eqn:E7;
    cbn [mbind option_bind] in H; try discriminate.
  injection H as <- <- <- <-.
  exists doc, meta0, more, t, c, wtxt, tr. repeat split; assumption || reflexivity.
Qed.

Lemma field_missing n tag :
  Dom.getElementsByTagName tag (Dom.children n) = [] -> field n tag = None.
Proof. unfold field. intros ->. reflexivity. Qed.

Lemma field_empty n tag e es :
  Dom.getElementsByTagName tag (Dom.children n) = e :: es ->
  Dom.children e = [] -> field n tag = None.
Proof. unfold field. intros -> H. simpl. rewrite H. reflexivity. Qed.

Lemma bad_metadata_unparsed w nm ps mf :
  bad_metadata w nm ps mf -> parse_metadata w nm ps mf = None.
Proof.
  intros Hbad.
  destruct (parse_metadata w nm ps mf) as [[[[dt cn] wt] tn]|] eqn:E;
    [|reflexivity].
  exfalso.
  apply parse_metadata_some in E
    as (doc & meta0 & more & t & c & wtxt & tr &
        Hd & Hm & Ht & _ & Hc & _ & Hw & He & Htr & _).
  destruct Hbad as [H|doc' H H0|doc' m' more' tag H H0 Hin H1
                   |doc' m' more' tag e es H H0 Hin H1 H2
                   |doc' m' more' wt' H H0 H1 H2].
  - congruence.
  - congruence.
  - assert (doc' = doc) as -> by congruence.
    assert (m' = meta0) as -> by congruence.
    apply field_missing in H1.
    repeat (destruct Hin as [<-|Hin]; [congruence|]). destruct Hin.
  - assert (doc' = doc) as -> by congruence.
    assert (m' = meta0) as -> by congruence.
    eapply field_empty in H1; [|exact H2].
    repeat (destruct Hin as [<-|Hin]; [congruence|]). destruct Hin.
  - assert (doc' = doc) as -> by congruence.
    assert (m' = meta0) as -> by congruence.
    congruence.
Qed.

(** C6, as amended: when the document is malformed, or has no meta
    element, or one of the four fields is missing or empty, or
    evaluating the weight text raises (in [eval] or in [float]), the
    resolution returns absent after the diagnostic, and nothing is
    raised. *)
Theorem metadata_failure w sample periods :
  isdir w (Path.join (dataroot w) sample) = true ->
  isfile w (metafile_of w sample) = true ->
  bad_metadata w sample periods (metafile_of w sample) ->
  get_sample w sample periods = (Return None, ["Could not parse metadata!"]).
Proof.
  unfold metafile_of, get_sample. intros -> -> Hbad. cbn [negb].
  rewrite (bad_metadata_unparsed _ _ _ _ Hbad). reflexivity.
Qed.

Lemma metadata_failure_witness :
  get_sample Example3.no_tree "samp" None =
    (Return None, ["Could not parse metadata!"]).
Proof.
  apply metadata_failure; [reflexivity|reflexivity|].
  eapply (MissingField _ _ _ _ _ _ [] "tree");
    [reflexivity|reflexivity|simpl; tauto|reflexivity].
Defined.

(** C6, as stated, fails: [len('abcd')] is no arithmetic expression,
    yet [eval] accepts it and the Sample is returned, with weight 4.0. *)
Lemma call_weight_accepted :
  weight_text Example3.call_weight "samp" = Some "len('abcd')" /\
  Py.read "len('abcd')" = None /\
  exists d,
    get_sample Example3.call_weight "samp" None = (Return (Some d), []) /\
    Some (weight d) = Py.float_of_int 4.
Proof.
  split; [reflexivity|]. split; [reflexivity|].
  eexists. split; [vm_compute; reflexivity|]. vm_compute. reflexivity.
Qed.

(** ** The weight *)

Lemma eval_integral : forall e,
  integral e = true -> Py.eval e = Py.VInt <$> floor_value e.
Proof.
  induction e as [n|dg k|a IH|a IH|a IHa b IHb|a IHa b IHb|a IHa b IHb|a IHa b IHb];
    simpl; intros H; try discriminate; try reflexivity; auto.
  - rewrite (IH H). destruct (floor_value a); reflexivity.
  - apply andb_prop in H as [Ha Hb]. rewrite (IHa Ha), (IHb Hb).
    destruct (floor_value a), (floor_value b); reflexivity.
  - apply andb_prop in H as [Ha Hb]. rewrite (IHa Ha), (IHb Hb).
    destruct (floor_value a), (floor_value b); reflexivity.
  - apply andb_prop in H as [Ha Hb]. rewrite (IHa Ha), (IHb Hb).
    destruct (floor_value a), (floor_value b); reflexivity.
  - apply andb_prop in H as [Ha Hb]. rewrite (IHa Ha), (IHb Hb).
    destruct (floor_value a), (floor_value b) as [y|]; try reflexivity.
    simpl. destruct (y =? 0); reflexivity.
Qed.

Lemma exact_division_free : forall e z,
  integral e = true -> division_free e = true ->
  floor_value e = Some z ->
  exists q, exact e = Some q /\ (q == inject_Z z)%Q.
Proof.
  induction e as [n|dg k|a IH|a IH|a IHa b IHb|a IHa b IHb|a IHa b IHb|a IHa b IHb];
    simpl; intros z Hi Hd Hv; try discriminate.
  - injection Hv as <-. eexists. split; [reflexivity|reflexivity].
  - auto.
  - destruct (floor_value a) as [x|] eqn:Ea; [|discriminate].
    injection Hv as <-. destruct (IH x Hi Hd eq_refl) as (q & -> & Hq).
    eexists. split; [reflexivity|]. rewrite Hq, inject_Z_opp. reflexivity.
  - apply andb_prop in Hi as [? ?]. apply andb_prop in Hd as [? ?].
    destruct (floor_value a) as [x|]; [|discriminate].
    destruct (floor_value b) as [y|]; [|discriminate].
    injection Hv as <-.
    destruct (IHa x) as (qa & -> & Ha); auto.
    destruct (IHb y) as (qb & -> & Hb); auto.
    eexists. split; [reflexivity|]. rewrite Ha, Hb, inject_Z_plus. reflexivity.
  - apply andb_prop in Hi as [? ?]. apply andb_prop in Hd as [? ?].
    destruct (floor_value a) as [x|]; [|discriminate].
    destruct (floor_value b) as [y|]; [|discriminate].
    injection Hv as <-.
    destruct (IHa x) as (qa & -> & Ha); auto.
    destruct (IHb y) as (qb & -> & Hb); auto.
    eexists. split; [reflexivity|].
    rewrite Ha, Hb. unfold Z.sub. rewrite inject_Z_plus, inject_Z_opp. reflexivity.
  - apply andb_prop in Hi as [? ?]. apply andb_prop in Hd as [? ?].
    destruct (floor_value a) as [x|]; [|discriminate].
    destruct (floor_value b) as [y|]; [|discriminate].
    injection Hv as <-.
    destruct (IHa x) as (qa & -> & Ha); auto.
    destruct (IHb y) as (qb & -> & Hb); auto.
    eexists. split; [reflexivity|]. rewrite Ha, Hb, inject_Z_mult. reflexivity.
Qed.

Lemma returned_weight w sample periods d log :
  get_sample w sample periods = (Return (Some d), log) ->
  exists text, weight_text w sample = Some text /\
               eval_weight w sample periods text = Some (weight d).
Proof.
  unfold get_sample, weight_text, metafile_of. intros H.
  destruct (negb _); [discriminate|].
  destruct (negb _); [discriminate|].
  destruct (parse_metadata _ _) as [[[[dt cn] wt] tn]|] eqn:Hp; [|discriminate].
  apply parse_metadata_some in Hp
    as (doc & meta0 & more & t & c & wtxt & tr &
        Hx & Hm & _ & _ & _ & _ & Hw & He & _).
  rewrite Hx. cbn [mbind option_bind]. rewrite Hm.
  cbn [head mbind option_bind]. rewrite Hw. cbn [mbind option_bind].
  exists (py_str wtxt). split; [reflexivity|].
  destruct (classes !! cn); [|discriminate].
  destruct (types !! dt) as [code|]; [|discriminate].
  rewrite types_DATA in H. destruct (code =? 0).
  - destruct (data_loop _ _ _ _); try discriminate.
    injection H as <- _. exact He.
  - injection H as <- _. exact He.
Qed.

(** C7, as amended: when the weight text is an arithmetic expression
    over numeric literals, the weight of the returned Sample is the value
    Python 2 gives the expression, as a float: binary64 arithmetic from
    the first decimal literal on (so for [0.1*1.5] the product of the two
    floats), and integer arithmetic between integers, with [/] rounding
    the quotient down.  When all literals are integers the weight is the
    float of that integer, and when moreover no division occurs the
    integer is the exact arithmetic value. *)
Theorem arithmetic_weight w sample periods d log text e :
  get_sample w sample periods = (Return (Some d), log) ->
  weight_text w sample = Some text ->
  Py.read text = Some e ->
  exists v,
    Py.eval e = Some v /\ Py.to_float v = Some (weight d) /\
    (integral e = true ->
     exists z, v = Py.VInt z /\ floor_value e = Some z /\
               Py.float_of_int z = Some (weight d) /\
               (division_free e = true ->
                exists q, exact e = Some q /\ (q == inject_Z z)%Q)).
Proof.
  intros H Ht Hr.
  destruct (returned_weight _ _ _ _ _ H) as (text' & Ht' & He).
  rewrite Ht in Ht'. injection Ht' as <-.
  unfold eval_weight in He. rewrite Hr in He.
  destruct (Py.eval e) as [v|] eqn:Ev; [|discriminate].
  cbn [mbind option_bind] in He.
  exists v. split; [reflexivity|]. split; [exact He|].
  intros Hi. rewrite (eval_integral e Hi) in Ev.
  destruct (floor_value e) as [z|] eqn:Ez; [|discriminate].
  injection Ev as <-.
  exists z. split; [reflexivity|]. split; [reflexivity|].
  split; [exact He|].
  intros Hd. apply exact_division_free; assumption.
Qed.

Lemma arithmetic_weight_witness :
  exists v,
    Py.eval (Py.EMul (Py.EDec 1 1) (Py.EDec 15 1)) = Some v /\
    Py.to_float v = Some (S754_finite false 5404319552844596 (-55)) /\
    (integral (Py.EMul (Py.EDec 1 1) (Py.EDec 15 1)) = true ->
     exists z, v = Py.VInt z /\
               floor_value (Py.EMul (Py.EDec 1 1) (Py.EDec 15 1)) = Some z /\
               Py.float_of_int z =
                 Some (S754_finite false 5404319552844596 (-55)) /\
               (division_free (Py.EMul (Py.EDec 1 1) (Py.EDec 15 1)) = true ->
                exists q,
                  exact (Py.EMul (Py.EDec 1 1) (Py.EDec 15 1)) = Some q /\
                  (q == inject_Z z)%Q)).
Proof.
  refine (arithmetic_weight (Example.data_world "mc" "0.1*1.5") "samp" None
            (mkDataset "samp" 1 1 "tau"
               (S754_finite false 5404319552844596 (-55))
               ["/data/samp/" ++ Example.run153000 ++ "/a.root";
                "/data/samp/" ++ Example.run160000 ++ "/b.root"])
            [] "0.1*1.5" _ _ _ _);
    vm_compute; reflexivity.
Defined.

(** With integer literals: [2*3+1] gives 7.0, the float of the exact
    value, and [7/2] gives 3.0, the float of the quotient rounded down. *)
Example integer_weights :
  (exists d,
     get_sample (Example.data_world "mc" "2*3+1") "samp" None =
       (Return (Some d), []) /\
     Some (weight d) = Py.float_of_int 7) /\
  (exists d,
     get_sample (Example.data_world "mc" "7/2") "samp" None =
       (Return (Some d), []) /\
     Some (weight d) = Py.float_of_int 3).
Proof.
  split; eexists; (split; [vm_compute; reflexivity|vm_compute; reflexivity]).
Qed.

(** C7, as stated, fails: the weight text [1/2] is a pure arithmetic
    expression of value one half, and the weight of the Sample is 0.0.
    With decimal literals the arithmetic is that of binary64: the weight
    for [0.1*1.5] is not the float of [0.15], but the next one. *)
Lemma half_is_zero :
  (exists d e q v,
     get_sample (Example.data_world "mc" "1/2") "samp" None =
       (Return (Some d), []) /\
     weight_text (Example.data_world "mc" "1/2") "samp" = Some "1/2" /\
     Py.read "1/2" = Some e /\
     exact e = Some q /\ (q == 1 # 2)%Q /\
     float_value (weight d) = Some v /\ (v == 0)%Q /\
     ~ (v == q)%Q) /\
  (exists d,
     get_sample (Example.data_world "mc" "0.1*1.5") "samp" None =
       (Return (Some d), []) /\
     weight d = S754_finite false 5404319552844596 (-55) /\
     Py.float_of_dec 15 2 = S754_finite false 5404319552844595 (-55)).
Proof.
  split.
  - eexists _, _, _, _.
    split; [vm_compute; reflexivity|].
    split; [reflexivity|].
    split; [vm_compute; reflexivity|].
    split; [vm_compute; reflexivity|].
    split; [reflexivity|].
    split; [vm_compute; reflexivity|].
    split; [reflexivity|]. discriminate.
  - eexists. split; [vm_compute; reflexivity|].
    split; vm_compute; reflexivity.
Qed.

(** ** Paths and [glob] *)

Section PathFacts.
Import Path.

Lemma app_assoc_s (a b c : string) : (a ++ b) ++ c = a ++ (b ++ c).
Proof.
  induction a as [|x a IH]; [reflexivity|].
  change (String x ((a ++ b) ++ c) = String x (a ++ (b ++ c))).
  f_equal. exact IH.
Qed.

Lemma ends_cons c s :
  s <> "" -> ends_with_slash (String c s) = ends_with_slash s.
Proof. destruct s; [congruence|reflexivity]. Qed.

Lemma app_not_empty a b : b <> "" -> a ++ b <> "".
Proof. destruct a; [exact id|discriminate]. Qed.

Lemma ends_app a b : b <> "" -> ends_with_slash (a ++ b) = ends_with_slash b.
Proof.
  intros Hb. induction a as [|x a IH]; [reflexivity|].
  change (ends_with_slash (String x (a ++ b)) = ends_with_slash b).
  rewrite ends_cons; [exact IH|apply app_not_empty, Hb].
Qed.

Lemma lead_ends a : lead a = "" \/ ends_with_slash (lead a) = true.
Proof.
  unfold lead. destruct (String.eqb a "") eqn:E; simpl.
  - left. apply String.eqb_eq, E.
  - right. destruct (ends_with_slash a) eqn:E2; [exact E2|].
    rewrite ends_app; [reflexivity|discriminate].
Qed.

Lemma join_lead a p :
  p <> "" -> no_slash p = true -> join a p = lead a ++ p.
Proof.
  intros Hp Hs. unfold join, lead.
  destruct p as [|c t]; [congruence|]. simpl in Hs.
  apply andb_prop in Hs as [Hc _]. apply negb_true_iff in Hc. rewrite Hc.
  destruct (String.eqb a "" || ends_with_slash a); [reflexivity|].
  exact (eq_sym (app_assoc_s a "/" (String c t))).
Qed.

Lemma cut_plain p : no_slash p = true -> cut p = ("", p).
Proof.
  induction p as [|c t IH]; simpl; intros H; [reflexivity|].
  apply andb_prop in H as [Hc Ht]. rewrite (IH Ht).
  apply negb_true_iff in Hc. rewrite Hc. reflexivity.
Qed.

Lemma cut_cons c t :
  cut (String c t) =
    match cut t with
    | (String x h, tl) => (String c (String x h), tl)
    | (EmptyString, tl) =>
        if Ascii.eqb c slash then (String c EmptyString, t)
        else (EmptyString, String c t)
    end.
Proof. simpl. destruct (cut t) as [[|x h] tl]; reflexivity. Qed.

Lemma cut_app h p :
  h = "" \/ ends_with_slash h = true -> no_slash p = true ->
  cut (h ++ p) = (h, p).
Proof.
  intros Hh Hp. induction h as [|c t IH]; [apply cut_plain, Hp|].
  destruct Hh as [Hh|Hh]; [discriminate|].
  change (String c t ++ p) with (String c (t ++ p)). rewrite cut_cons.
  destruct t as [|c' t'].
  - change ("" ++ p) with p. rewrite (cut_plain p Hp).
    simpl in Hh. rewrite Hh. reflexivity.
  - rewrite IH; [reflexivity|]. right. exact Hh.
Qed.

Lemma split_join a p :
  p <> "" -> no_slash p = true ->
  split (join a p) =
    (match rstrip (lead a) with EmptyString => lead a | h => h end, p).
Proof.
  intros Hp Hs. unfold split. rewrite (join_lead a p Hp Hs).
  rewrite (cut_app _ _ (lead_ends a) Hs).
  destruct (rstrip (lead a)); reflexivity.
Qed.

Lemma rstrip_cons c t :
  rstrip (String c t) =
    match rstrip t with
    | EmptyString => if Ascii.eqb c slash then EmptyString
                     else String c EmptyString
    | String x t' => String c (String x t')
    end.
Proof. reflexivity. Qed.

Lemma rstrip_clean d :
  d <> "" -> ends_with_slash d = false -> rstrip (d ++ "/") = d.
Proof.
  induction d as [|c t IH]; intros Hd He; [congruence|].
  change (String c t ++ "/") with (String c (t ++ "/")). rewrite rstrip_cons.
  destruct t as [|c' t'].
  - simpl in He. change (rstrip ("" ++ "/")) with "". rewrite He. reflexivity.
  - rewrite IH; [reflexivity|discriminate|exact He].
Qed.

(** A path that is not empty and does not end in a slash is split back
    from what was joined to it. *)
Lemma split_join_clean d p :
  d <> "" -> ends_with_slash d = false ->
  p <> "" -> no_slash p = true ->
  split (join d p) = (d, p).
Proof.
  intros Hd He Hp Hs. rewrite (split_join d p Hp Hs). unfold lead.
  destruct (String.eqb_spec d ""); [congruence|]. rewrite He. simpl.
  rewrite (rstrip_clean d Hd He). destruct d; [congruence|reflexivity].
Qed.

Lemma plain_no_end n : no_slash n = true -> ends_with_slash n = false.
Proof.
  induction n as [|c t IH]; simpl; intros H; [reflexivity|].
  apply andb_prop in H as [Hc Ht]. apply negb_true_iff in Hc.
  destruct t; [exact Hc|apply IH, Ht].
Qed.

Lemma join_clean a n :
  n <> "" -> no_slash n = true ->
  join a n <> "" /\ ends_with_slash (join a n) = false.
Proof.
  intros Hn Hs. rewrite (join_lead a n Hn Hs). split.
  - destruct (lead a); simpl; [exact Hn|discriminate].
  - rewrite (ends_app _ _ Hn). apply plain_no_end, Hs.
Qed.

End PathFacts.

Section GlobFacts.
Import Path Glob GlobFs.

Lemma txt_app a b : txt (a ++ b) = (txt a ++ txt b)%list.
Proof.
  induction a as [|c a IH]; [reflexivity|].
  change (c :: txt (a ++ b) = c :: (txt a ++ txt b)%list). f_equal. exact IH.
Qed.

Lemma has_magic_app a b : has_magic (a ++ b) = has_magic a || has_magic b.
Proof. unfold has_magic. fold (txt (a ++ b)). rewrite txt_app. apply existsb_app. Qed.

Lemma wild_star s : wild (txt "*") s = true.
Proof. induction s as [|c t IH]; [reflexivity|exact IH]. Qed.

Lemma wild_root s : wild (txt "*root*") s = contains (txt "root") s.
Proof.
  induction s as [|c t IH]; [reflexivity|].
  change (wild (txt "*root*") (c :: t))
    with (wild (txt "root*") (c :: t) || wild (txt "*root*") t).
  change (contains (txt "root") (c :: t))
    with (starts_with (txt "root") (c :: t) || contains (txt "root") t).
  rewrite IH. f_equal.
  destruct t as [|c2 [|c3 [|c4 t]]]; simpl;
    rewrite ?andb_false_r; try reflexivity.
  change ((fix star (s : chars) : bool :=
             match s with [] => true | _ :: _ => false end ||
             match s with [] => false | _ :: t0 => star t0 end) t)
    with (wild (txt "*") t).
  rewrite wild_star. reflexivity.
Qed.

Lemma fnmatch_star n : fnmatch n "*" = true.
Proof. apply wild_star. Qed.

Lemma fnmatch_root n : fnmatch n "*root*" = contains (txt "root") (txt n).
Proof. apply wild_root. Qed.

(** [glob] of a pattern in a directory that is named without wildcard
    characters: the visible entries that match. *)
Lemma glob_pattern w a p root :
  split (join a p) = (root, p) ->
  root <> "" -> has_magic root = false ->
  p <> "" -> no_slash p = true -> has_magic p = true -> hidden p = false ->
  glob w (join a p) =
    map (join root)
        (List.filter (fun n => fnmatch n p)
           (List.filter (fun n => negb (hidden n)) (listdir w root))).
Proof.
  intros Hsp Hr Hm Hp Hs Hmp Hh. unfold glob.
  rewrite Hsp. rewrite (join_lead a p Hp Hs) at 1.
  rewrite has_magic_app, Hmp, orb_true_r. cbn [negb].
  destruct (String.eqb_spec root ""); [congruence|].
  rewrite Hm, andb_false_r. cbn [flat_map]. rewrite app_nil_r.
  unfold glob1. destruct (String.eqb_spec root ""); [congruence|].
  rewrite Hh. reflexivity.
Qed.

End GlobFacts.

(** ** The files of a simulated sample *)

Lemma filter_twice {A} (f g : A -> bool) l :
  List.filter f (List.filter g l) = List.filter (fun x => g x && f x) l.
Proof.
  induction l as [|x l IH]; simpl; [reflexivity|].
  destruct (g x); simpl; [destruct (f x)|]; rewrite IH; reflexivity.
Qed.

Lemma flat_map_in_ext {A B} (f g : A -> list B) l :
  (forall x, In x l -> f x = g x) -> flat_map f l = flat_map g l.
Proof.
  induction l as [|x l IH]; simpl; intros H; [reflexivity|].
  rewrite (H x), IH; auto.
Qed.


Lemma has_magic_lead a : Glob.has_magic (lead a) = Glob.has_magic a.
Proof.
  unfold lead. destruct (_ || _); [reflexivity|].
  rewrite has_magic_app. apply orb_false_r.
Qed.

Lemma sample_root_split w sample :
  Path.split (Path.join (Path.join (dataroot w) sample) "*") =
    (sample_root w sample, "*").
Proof.
  unfold sample_root. rewrite split_join; [reflexivity|discriminate|reflexivity].
Qed.

Lemma sample_root_not_empty w sample :
  Path.join (dataroot w) sample <> "" -> sample_root w sample <> "".
Proof.
  intros Hb. unfold sample_root.
  rewrite split_join; [|discriminate|reflexivity]. cbn [fst].
  assert (Hl : lead (Path.join (dataroot w) sample) <> "").
  { unfold lead. destruct (_ || _); [exact Hb|].
    destruct (Path.join (dataroot w) sample); discriminate. }
  destruct (Path.rstrip _); [exact Hl|discriminate].
Qed.

Lemma glob_root_entries w root n :
  sane w -> Glob.has_magic root = false ->
  In n (listdir w root) -> Glob.has_magic n = false ->
  GlobFs.glob w (Path.join (Path.join root n) "*root*") =
    map (Path.join (Path.join root n)) (root_entries w (Path.join root n)).
Proof.
  intros [Hplain _] Hroot Hin Hn.
  destruct (Hplain _ _ Hin) as [Hne Hns].
  destruct (join_clean root n Hne Hns) as [Hd1 Hd2].
  rewrite (glob_pattern w _ "*root*" (Path.join root n));
    [|apply split_join_clean; auto; discriminate|exact Hd1| |discriminate
     |reflexivity|reflexivity|reflexivity].
  - unfold root_entries. rewrite filter_twice. f_equal.
    apply filter_ext. intros f. rewrite fnmatch_root. reflexivity.
  - rewrite (join_lead _ _ Hne Hns), has_magic_app, has_magic_lead, Hroot.
    exact Hn.
Qed.






Lemma fs_sane dirs plain doc other :
  Forall (fun e => Forall (fun n => n <> "" /\ no_slash n = true) (snd e)) dirs ->
  existsb (fun e => String.eqb (fst e) "") dirs = false ->
  sane (Example.fs dirs plain doc other).
Proof.
  intros Hall Hno. split; [|exact Hno].
  intros p n. cbn [listdir Example.fs].
  destruct (find _ dirs) as [e|] eqn:E; [|intros []].
  apply find_some in E as [Hin _].
  rewrite List.Forall_forall in Hall. specialize (Hall e Hin).
  rewrite List.Forall_forall in Hall. apply Hall.
Qed.

Lemma mc_plain_sane : sane Example4.mc_plain.
Proof.
  apply fs_sane; [|reflexivity].
  repeat constructor; discriminate.
Qed.



(** In the two worlds of the examples: the subdirectory [d1], named
    without wildcard character, contributes [a.root.1] and [c_root_x];
    the path of [d[1]], read as a pattern, is answered by [d1]. *)
Example plain_and_wildcard_dirs :
  get_sample Example4.mc_plain "samp" None =
    (Return (Some (mkDataset "samp" 1 0 "tau"
                     (S754_finite false 4503599627370496 (-52))
                     ["/data/samp/d1/a.root.1"; "/data/samp/d1/c_root_x"])),
     []) /\
  listed_dirs Example4.mc_world (sample_root Example4.mc_world "samp") =
    ["d[1]"; "d1"] /\
  map (Path.join "/data/samp/d1")
      (root_entries Example4.mc_world "/data/samp/d1") =
    ["/data/samp/d1/a.root.1"; "/data/samp/d1/c_root_x"] /\
  iglob Example4.mc_world "/data/samp/d[1]" = ["/data/samp/d1"].
Proof. repeat split; vm_compute; reflexivity. Qed.


(** * Further properties of [get_sample] *)

(** ** Every way to fail *)

Lemma data_loop_unfiltered : forall dirs runs log log',
  data_loop None dirs runs log <> ReturnedNone log'.
Proof.
  induction dirs as [|d more IH]; intros runs log log'; simpl; [discriminate|].
  destruct (Re.rmatch datapattern (Path.basename d)) as [g|]; [|apply IH].
  destruct (Re.group g "run"); [|discriminate].
  destruct (record_run _ _ _ _ _ _). apply IH.
Qed.

Lemma sample_meta_none w sample periods :
  sample_meta w sample periods = None <->
  isdir w (Path.join (dataroot w) sample) = false \/
  isfile w (metafile_of w sample) = false \/
  parse_metadata w sample periods (metafile_of w sample) = None.
Proof.
  unfold sample_meta, metafile_of.
  destruct (isdir w _); [|cbn [andb]; tauto].
  destruct (isfile w _); [|cbn [andb]; tauto].
  cbn [andb]. split; [auto|]. intros [H|[H|H]]; congruence.
Qed.

Lemma types_entries dt code :
  types !! dt = Some code <->
  (dt = "DATA" /\ code = 0) \/ (dt = "MC" /\ code = 1).
Proof.
  unfold types, types_items. cbn [list_to_map foldr uncurry fst snd].
  rewrite lookup_insert_Some, lookup_insert_Some, lookup_empty.
  split.
  - intros [[<- <-]|[_ [[<- <-]|[_ [=]]]]]; auto.
  - intros [[-> ->]|[-> ->]]; [left; auto|right].
    split; [discriminate|left; auto].
Qed.

(** X1: [get_sample] returns [None] in exactly these cases: the sample
    directory or its [meta.xml] is missing, the metadata does not parse,
    the upper-cased class is not in [classes], or the sample is DATA, a
    period filter is given and the loop meets an undefined label.  In
    particular a sample of type MC with a known class is never absent,
    and without a filter neither is a DATA sample. *)
Theorem absent_iff w sample periods :
  (exists log, get_sample w sample periods = (Return None, log)) <->
  sample_meta w sample periods = None \/
  (exists dt cn wt tn,
     sample_meta w sample periods = Some (dt, cn, wt, tn) /\
     (classes !! cn = None \/
      (dt = "DATA" /\ stops_at_undefined w sample periods))).
Proof.
  unfold stops_at_undefined, actualdirs.
  destruct (sample_meta w sample periods) as [[[[dt cn] wt] tn]|] eqn:Hm.
  - use_meta Hm.
    destruct (classes !! cn) as [ct|] eqn:Hc.
    2:{ split; [|eauto]. intros _. right. exists dt, cn, wt, tn. auto. }
    destruct (types !! dt) as [code|] eqn:Ht.
    2:{ split; [intros [? [=]]|].
        intros [[=]|(? & ? & ? & ? & [= <- <- <- <-] & [?|[-> _]])];
          [congruence|].
        rewrite types_DATA in Ht. discriminate Ht. }
    change (types !! "DATA") with (Some 0). cbv beta iota.
    set (dirs := List.filter _ _).
    destruct (code =? 0) eqn:Hcode.
    + apply Z.eqb_eq in Hcode as ->.
      assert (dt = "DATA") as ->.
      { apply types_entries in Ht as [[-> _]|[_ [=]]]. reflexivity. }
      destruct periods as [ps|].
      * pose proof (data_loop_aborts ps dirs [] []) as Hab.
        destruct (data_loop (Some ps) dirs [] []) as [runs l|l|e l] eqn:Hl.
        -- split; [intros [? [=]]|].
           intros [[=]|(? & ? & ? & ? & [= <- <- <- <-] & [?|[_ H]])];
             [congruence|].
           destruct H as (ps' & d & g & r & p & [= <-] & Hin & Hg & Hr & Hs).
           apply scan_undefined in Hs.
           destruct (proj2 Hab) as [? [=]]. eauto 8.
        -- split; [|eauto]. intros _. right. exists "DATA", cn, wt, tn.
           split; [reflexivity|]. right. split; [reflexivity|].
           destruct (proj1 Hab) as (d & g & r & p & Hin & Hg & Hr & Hs); [eauto|].
           apply scan_undefined in Hs. exists ps, d, g, r, p. auto.
        -- exfalso. eapply data_loop_no_raise, Hl.
      * destruct (data_loop None dirs [] []) as [runs l|l|e l] eqn:Hl.
        -- split; [intros [? [=]]|].
           intros [[=]|(? & ? & ? & ? & [= <- <- <- <-] & [?|[_ H]])];
             [congruence|].
           destruct H as (? & ? & ? & ? & ? & [=] & _).
        -- exfalso. eapply data_loop_unfiltered, Hl.
        -- exfalso. eapply data_loop_no_raise, Hl.
    + split; [intros [? [=]]|].
      intros [[=]|(? & ? & ? & ? & [= <- <- <- <-] & [?|[-> _]])];
        [congruence|].
      rewrite types_DATA in Ht. injection Ht as <-. discriminate Hcode.
  - split; [auto|]. intros _. apply sample_meta_none in Hm.
    unfold get_sample, metafile_of in *.
    destruct (isdir w _); cbn [negb]; [|eauto].
    destruct (isfile w _); cbn [negb]; [|eauto].
    destruct Hm as [Hm|[Hm|Hm]]; try discriminate. rewrite Hm. eauto.
Qed.


(** ** What a returned Sample holds *)

(** X3: a returned Sample is made from the first [meta] element of the
    document: its codes are the entries of [types] and [classes] for the
    upper-cased texts of the type and class fields, whatever their
    letter case, its tree name is the text of the tree field, and its
    name is the sample name, with the period suffix only for a DATA
    sample with a non-empty filter. *)
Theorem returned_fields w sample periods d log :
  get_sample w sample periods = (Return (Some d), log) ->
  exists doc meta0 more t c tr,
    xml_parse w (metafile_of w sample) = Some doc /\
    Dom.getElementsByTagName "meta" doc = meta0 :: more /\
    field meta0 "type" = Some (Some t) /\
    field meta0 "class" = Some (Some c) /\
    field meta0 "tree" = Some tr /\
    types !! upper t = Some (datatype d) /\
    classes !! upper c = Some (classtype d) /\
    treename d = py_str tr /\
    name d = sample_name sample (datatype d) periods.
Proof.
  unfold get_sample, metafile_of, sample_name. intros H.
  destruct (negb _); [discriminate|].
  destruct (negb _); [discriminate|].
  destruct (parse_metadata _ _) as [[[[dt cn] wt] tn]|] eqn:Hp; [|discriminate].
  apply parse_metadata_some in Hp
    as (doc & meta0 & more & t & c & wtxt & tr &
        Hx & Hm & Ht & -> & Hc & -> & _ & _ & Htr & ->).
  exists doc, meta0, more, t, c, tr.
  destruct (classes !! upper c) as [ct|] eqn:Ec; [|discriminate].
  destruct (types !! upper t) as [code|] eqn:Et; [|discriminate].
  rewrite types_DATA in H. destruct (code =? 0) eqn:Ecode.
  - destruct (data_loop _ _ _ _); try discriminate.
    injection H as <- _. cbn [datatype classtype treename name].
    rewrite Ecode. auto 10.
  - injection H as <- _. cbn [datatype classtype treename name].
    rewrite Ecode. auto 10.
Qed.

Lemma returned_fields_witness :
  exists doc meta0 more t c tr,
    xml_parse (Example.data_world "Data" "1") "/data/samp/meta.xml" = Some doc /\
    Dom.getElementsByTagName "meta" doc = meta0 :: more /\
    field meta0 "type" = Some (Some t) /\
    field meta0 "class" = Some (Some c) /\
    field meta0 "tree" = Some tr /\
    types !! upper t = Some 0 /\
    classes !! upper c = Some 1 /\
    "tau" = py_str tr /\
    "samp_AB" = sample_name "samp" 0 (Some ["AB"]).
Proof.
  refine (returned_fields (Example.data_world "Data" "1") "samp" (Some ["AB"])
            (mkDataset "samp_AB" 0 1 "tau"
               (S754_finite false 4503599627370496 (-52))
               ["/data/samp/" ++ Example.run153000 ++ "/a.root"]) [] _).
  vm_compute. reflexivity.
Defined.

(** X4: a class that is not in [classes] makes the result absent, with
    the diagnostic naming it and listing the two known classes, whether
    or not the type is known: the class is looked up first, so an
    unknown class hides the [KeyError] of an unknown type. *)
Theorem unknown_class_absent w sample periods dt cn wt tn :
  sample_meta w sample periods = Some (dt, cn, wt, tn) ->
  classes !! cn = None ->
  exists keys,
    get_sample w sample periods =
      (Return None,
       ("Class " ++ cn ++ " is not defined!") :: "Use one of these:" :: keys) /\
    Permutation keys ["BACKGROUND"; "SIGNAL"].
Proof.
  intros Hm Hc. use_meta Hm. rewrite Hc.
  exists (table_keys w classes_items). split; [reflexivity|].
  apply (str_order_perm w).
Qed.

Lemma unknown_class_absent_witness :
  exists keys,
    get_sample
      (Example.fs [("/data/samp", ["meta.xml"])] ["/data/samp/meta.xml"]
         (Example.meta "nonsense" "foo" "1" "tau") Example.no_other)
      "samp" None =
      (Return None,
       ("Class " ++ "FOO" ++ " is not defined!") :: "Use one of these:" :: keys) /\
    Permutation keys ["BACKGROUND"; "SIGNAL"].
Proof.
  apply (unknown_class_absent _ _ _ "NONSENSE" "FOO"
           (S754_finite false 4503599627370496 (-52)) "tau");
    vm_compute; reflexivity.
Defined.



(** A weight text that names the argument: [len(periods)] raises without
    a filter, so that the result is absent, and gives the number of
    labels with one. *)
Example periods_reach_eval :
  get_sample Example3.periods_weight "samp" None =
    (Return None, ["Could not parse metadata!"]) /\
  exists d,
    get_sample Example3.periods_weight "samp" (Some ["ZZ"]) =
      (Return (Some d), []) /\
    Some (weight d) = Py.float_of_int 1.
Proof.
  split; [vm_compute; reflexivity|].
  eexists. split; vm_compute; reflexivity.
Qed.

(** ** The period filter, further *)

Lemma scan_defined r : forall ps,
  (forall p, In p ps -> is_Some (data_periods !! p)) ->
  (scan_periods r ps = InPeriod /\
   exists p rg, In p ps /\ data_periods !! p = Some rg /\
                in_xrange r rg = true) \/
  (scan_periods r ps = NotInPeriod /\
   forall p rg, In p ps -> data_periods !! p = Some rg ->
                in_xrange r rg = false).
Proof.
  induction ps as [|q more IH]; intros Hdef.
  - right. split; [reflexivity|]. intros ? ? [].
  - cbn [scan_periods].
    destruct (Hdef q (or_introl eq_refl)) as [rg Hq]. rewrite Hq.
    destruct (in_xrange r rg) eqn:Hr.
    + left. split; [reflexivity|]. exists q, rg. simpl. auto.
    + destruct IH as [[-> (p & rg' & Hin & Hp & Hx)]|[-> Hall]].
      * intros p Hp. apply Hdef. right. exact Hp.
      * left. split; [reflexivity|]. exists p, rg'. simpl. auto.
      * right. split; [reflexivity|].
        intros p rg' [<-|Hin] Hp; [congruence|eauto].
Qed.

(** X6: when every listed label is in the period table, a run is kept by
    the filter if and only if it lies in the range of some listed label
    (lower bound included, upper bound excluded); the order of the
    labels and their repetition make no difference. *)
Theorem kept_any_period r ps :
  (forall p, In p ps -> is_Some (data_periods !! p)) ->
  (kept (Some ps) r <->
   exists p lo hi, In p ps /\ data_periods !! p = Some (lo, hi) /\
                   lo <= r < hi) /\
  (forall ps', (forall p, In p ps <-> In p ps') ->
               scan_periods r ps' = scan_periods r ps).
Proof.
  intros Hdef. split.
  - cbn [kept].
    destruct (scan_defined r ps Hdef)
      as [[-> (p & [lo hi] & Hin & Hp & Hx)]|[-> Hall]].
    + split; [|reflexivity]. intros _. exists p, lo, hi.
      unfold in_xrange in Hx. cbn [fst snd] in Hx. split; [exact Hin|].
      split; [exact Hp|lia].
    + split; [discriminate|].
      intros (p & lo & hi & Hin & Hp & Hlo).
      specialize (Hall _ _ Hin Hp). unfold in_xrange in Hall.
      cbn [fst snd] in Hall. lia.
  - intros ps' Hsame.
    assert (Hdef' : forall p, In p ps' -> is_Some (data_periods !! p))
      by (intros p Hp; apply Hdef, Hsame, Hp).
    destruct (scan_defined r ps Hdef)
      as [[-> (p & rg & Hin & Hp & Hx)]|[-> Hall]];
      destruct (scan_defined r ps' Hdef')
        as [[-> (p' & rg' & Hin' & Hp' & Hx')]|[-> Hall']];
      try reflexivity.
    + apply Hsame in Hin. rewrite (Hall' _ _ Hin Hp) in Hx. discriminate.
    + apply Hsame in Hin'. rewrite (Hall _ _ Hin' Hp') in Hx'. discriminate.
Qed.

Lemma kept_any_period_witness :
  (kept (Some ["C"; "AB"]) 153000 <->
   exists p lo hi, In p ["C"; "AB"] /\ data_periods !! p = Some (lo, hi) /\
                   lo <= 153000 < hi) /\
  (forall ps', (forall p, In p ["C"; "AB"] <-> In p ps') ->
               scan_periods 153000 ps' = scan_periods 153000 ["C"; "AB"]).
Proof.
  apply kept_any_period.
  intros p [<-|[<-|[]]]; eexists; reflexivity.
Defined.



(** ** One directory for every run *)

Lemma insert_domain (runs : Dict.t) r e r0 :
  is_Some (Dict.get (Dict.set runs r e) r0) <->
  is_Some (Dict.get runs r0) \/ r0 = r.
Proof.
  destruct (decide (r = r0)) as [<-|Hne].
  - rewrite get_set_eq. split; eauto.
  - rewrite get_set_ne by exact Hne. split; [auto|].
    intros [H| ->]; [exact H|congruence].
Qed.

Lemma record_run_domain runs log r ed d nm r0 :
  is_Some (Dict.get (record_run runs log r ed d nm).1 r0) <->
  is_Some (Dict.get runs r0) \/ r0 = r.
Proof.
  unfold record_run.
  destruct (Dict.get runs r) as [stored|] eqn:Hold.
  - destruct (edition stored <? ed); cbn [fst].
    + apply insert_domain.
    + split; [auto|]. intros [H| ->]; [exact H|eauto].
  - cbn [fst]. apply insert_domain.
Qed.

(** The runs of the map after the loop: those it started with and those
    of the kept directories. *)
Lemma data_loop_domain periods : forall dirs runs log runs' log',
  data_loop periods dirs runs log = Finished runs' log' ->
  forall r, is_Some (Dict.get runs' r) <->
            is_Some (Dict.get runs r) \/
            exists d ed, In d dirs /\ names_run periods d r ed.
Proof.
  induction dirs as [|d more IH]; intros runs log runs' log' H r.
  { injection H as <- _. split; [auto|]. intros [H|(? & ? & [] & _)]. exact H. }
  cbn [data_loop] in H.
  assert (Skip : forall log0,
    data_loop periods more runs log0 = Finished runs' log' ->
    (forall ed, ~ names_run periods d r ed) ->
    is_Some (Dict.get runs' r) <->
    is_Some (Dict.get runs r) \/
    exists d0 ed, In d0 (d :: more) /\ names_run periods d0 r ed).
  { intros log0 H0 Hno. rewrite (IH _ _ _ _ H0 r). split.
    - intros [Hr|(d0 & ed & Hin & Hn)]; [auto|].
      right. exists d0, ed. simpl. auto.
    - intros [Hr|(d0 & ed & [<-|Hin] & Hn)]; [auto|destruct (Hno _ Hn)|eauto]. }
  destruct (Re.rmatch datapattern (Path.basename d)) as [g|] eqn:Hm.
  2:{ apply (Skip _ H). intros ed (g' & s' & Hm' & _). congruence. }
  destruct (Re.group g "run") as [s|] eqn:Hs; [|discriminate].
  destruct (match periods with Some ps => _ | None => _ end) eqn:Hv;
    [discriminate| |].
  2:{ apply (Skip _ H). intros ed (g' & s' & Hm' & Hs' & <- & _ & Hk).
      assert (g' = g) as -> by congruence.
      assert (s' = s) as -> by congruence.
      apply kept_verdict in Hk. congruence. }
  pose proof (record_run_domain runs log (py_int s) (edition_of g) d
                (Path.basename d) r) as Hdom.
  destruct (record_run _ _ _ _ _ _) as [runs1 log1]. cbn [fst] in Hdom.
  rewrite (IH _ _ _ _ H r), Hdom. split.
  - intros [[Hr| ->]|(d0 & ed & Hin & Hn)]; [auto| |].
    + right. exists d, (edition_of g). split; [left; reflexivity|].
      exists g, s. repeat split; auto. apply kept_verdict, Hv.
    + right. exists d0, ed. simpl. auto.
  - intros [Hr|(d0 & ed & [<-|Hin] & Hn)]; [auto| |eauto].
    destruct Hn as (g' & s' & Hm' & Hs' & <- & _).
    assert (g' = g) as -> by congruence.
    assert (s' = s) as -> by congruence. auto.
Qed.

Lemma record_run_keys runs log r ed d nm :
  List.NoDup (Dict.keys runs) ->
  List.NoDup (Dict.keys (record_run runs log r ed d nm).1).
Proof.
  intros H. unfold record_run.
  destruct (Dict.get runs r) as [stored|].
  - destruct (edition stored <? ed); cbn [fst];
      [apply keys_set_NoDup, H|exact H].
  - cbn [fst]. apply keys_set_NoDup, H.
Qed.

(** No run comes twice in the dictionary. *)
Lemma data_loop_keys periods : forall dirs runs log runs' log',
  data_loop periods dirs runs log = Finished runs' log' ->
  List.NoDup (Dict.keys runs) -> List.NoDup (Dict.keys runs').
Proof.
  induction dirs as [|d more IH]; intros runs log runs' log' H Hn.
  { injection H as <- _. exact Hn. }
  cbn [data_loop] in H.
  destruct (Re.rmatch datapattern (Path.basename d)) as [g|]; [|eauto].
  destruct (Re.group g "run") as [s|]; [|discriminate].
  destruct (match periods with Some ps => _ | None => _ end);
    [discriminate| |eauto].
  pose proof (record_run_keys runs log (py_int s) (edition_of g) d
                (Path.basename d) Hn) as Hk.
  destruct (record_run _ _ _ _ _ _) as [runs1 log1]. cbn [fst] in Hk. eauto.
Qed.

(** X8: the files of a resolved DATA sample are those that [glob] finds
    in one directory for every run, the runs taken in the order in which
    the dictionary lists them: a run has its directory exactly when some
    candidate directory is named for it and kept by the period filter,
    no run comes twice, and the directory of a run is the first, in the
    order of enumeration, among those of the run with the greatest
    edition. *)
Theorem data_sample_runs w sample periods d log :
  get_sample w sample periods = (Return (Some d), log) ->
  datatype d = 0 ->
  exists retained : list (Z * run_entry),
    files d =
      flat_map (fun kv => GlobFs.glob w (Path.join (dir (snd kv)) "*root*"))
               retained /\
    List.NoDup (map fst retained) /\
    (forall r, In r (map fst retained) <->
               exists dr ed, In dr (actualdirs w sample) /\
                             names_run periods dr r ed) /\
    (forall r e, In (r, e) retained ->
       exists before after,
         actualdirs w sample = (before ++ dir e :: after)%list /\
         names_run periods (dir e) r (edition e) /\
         (forall d0 ed, In d0 before -> names_run periods d0 r ed ->
                        ed < edition e) /\
         (forall d0 ed, In d0 after -> names_run periods d0 r ed ->
                        ed <= edition e)).
Proof.
  unfold get_sample, actualdirs. intros H Hd.
  destruct (negb _); [discriminate|].
  destruct (negb _); [discriminate|].
  destruct (parse_metadata _ _ _ _) as [[[[dt cn] wt] tn]|]; [|discriminate].
  destruct (classes !! cn) as [ct|]; [|discriminate].
  destruct (types !! dt) as [code|]; [|discriminate].
  rewrite types_DATA in H. set (dirs := List.filter _ _) in *.
  destruct (code =? 0) eqn:Ecode.
  2:{ injection H as <- _. cbn [datatype] in Hd. subst code. discriminate. }
  destruct (data_loop periods dirs [] []) as [runs l| |] eqn:Hl;
    try discriminate.
  injection H as <- _. exists (Dict.items w runs).
  split; [reflexivity|]. split; [|split].
  - apply items_keys_NoDup, (data_loop_keys _ _ _ _ _ _ Hl). constructor.
  - intros r. pose proof (data_loop_domain _ _ _ _ _ _ Hl r) as Hdom.
    rewrite in_map_iff. split.
    + intros ([r' e] & <- & Hin). apply items_get in Hin.
      destruct (proj1 Hdom) as [[? [=]]|Hex]; [eauto|exact Hex].
    + intros Hex. destruct (proj2 Hdom (or_intror Hex)) as [e He].
      exists (r, e). split; [reflexivity|apply items_get, He].
  - intros r e He. apply items_get in He.
    destruct (data_loop_invariant _ _ _ _ _ _ Hl r e He)
      as [[Hr _]|(b & a & Hdirs & Hn & _ & Hb & Ha)].
    + discriminate Hr.
    + exists b, a. auto.
Qed.

Lemma data_sample_runs_witness :
  exists retained : list (Z * run_entry),
    ["/data/samp/" ++ Example.run153000_ed2 ++ "/new.root"] =
      flat_map (fun kv => GlobFs.glob Example2.two_editions
                            (Path.join (dir (snd kv)) "*root*"))
               retained /\
    List.NoDup (map fst retained) /\
    (forall r, In r (map fst retained) <->
               exists dr ed, In dr (actualdirs Example2.two_editions "samp") /\
                             names_run None dr r ed) /\
    (forall r e, In (r, e) retained ->
       exists before after,
         actualdirs Example2.two_editions "samp" =
           (before ++ dir e :: after)%list /\
         names_run None (dir e) r (edition e) /\
         (forall d0 ed, In d0 before -> names_run None d0 r ed ->
                        ed < edition e) /\
         (forall d0 ed, In d0 after -> names_run None d0 r ed ->
                        ed <= edition e)).
Proof.
  refine (data_sample_runs Example2.two_editions "samp" None
            (mkDataset "samp" 0 1 "tau"
               (S754_finite false 4503599627370496 (-52))
               ["/data/samp/" ++ Example.run153000_ed2 ++ "/new.root"])
            ["Warning: multiple editions of dataset " ++
             Example.run153000_ed2 ++ " exist!"] _ _);
    [vm_compute; reflexivity|reflexivity].
Defined.

(** Two runs, which collide in the interpreter's table: on an
    interpreter that lists them as CPython 2 does, in the order of
    insertion, the files of run 153000 come before those of 160000. *)
Example two_runs_files :
  exists d,
    get_sample (Example.data_world "data" "1") "samp" None =
      (Return (Some d), []) /\
    files d = ["/data/samp/" ++ Example.run153000 ++ "/a.root";
               "/data/samp/" ++ Example.run160000 ++ "/b.root"].
Proof. eexists. split; vm_compute; reflexivity. Qed.


(** ** What is printed for a DATA sample *)

Lemma data_loop_log periods : forall dirs runs log runs' log',
  data_loop periods dirs runs log = Finished runs' log' ->
  exists added,
    log' = (log ++ added)%list /\
    (forall d, In d dirs ->
       Re.rmatch datapattern (Path.basename d) = None ->
       In (invalid_name_warning d) added) /\
    (forall line, In line added ->
       exists d, In d dirs /\
         ((line = invalid_name_warning d /\
           Re.rmatch datapattern (Path.basename d) = None) \/
          (line = editions_warning d /\
           is_Some (Re.rmatch datapattern (Path.basename d))))).
Proof.
  induction dirs as [|d more IH]; intros runs log runs' log' H.
  { injection H as _ <-. exists []. rewrite app_nil_r.
    split; [reflexivity|]. split; [intros ? []|intros ? []]. }
  cbn [data_loop] in H.
  destruct (Re.rmatch datapattern (Path.basename d)) as [g|] eqn:Hm.
  - assert (Step : forall runs1 log1 extra,
      log1 = (log ++ extra)%list ->
      (forall line, In line extra -> line = editions_warning d) ->
      data_loop periods more runs1 log1 = Finished runs' log' ->
      exists added,
        log' = (log ++ added)%list /\
        (forall d0, In d0 (d :: more) ->
           Re.rmatch datapattern (Path.basename d0) = None ->
           In (invalid_name_warning d0) added) /\
        (forall line, In line added ->
           exists d0, In d0 (d :: more) /\
             ((line = invalid_name_warning d0 /\
               Re.rmatch datapattern (Path.basename d0) = None) \/
              (line = editions_warning d0 /\
               is_Some (Re.rmatch datapattern (Path.basename d0)))))).
    { intros runs1 log1 extra -> Hextra H1.
      destruct (IH _ _ _ _ H1) as (added & -> & Hinv & Hall).
      exists (extra ++ added)%list. rewrite app_assoc.
      split; [reflexivity|]. split.
      - intros d0 [<-|Hin] Hn; [congruence|].
        apply in_or_app. right. apply Hinv; assumption.
      - intros line Hl. apply in_app_or in Hl as [Hl|Hl].
        + exists d. split; [left; reflexivity|]. right.
          split; [apply Hextra, Hl|rewrite Hm; eauto].
        + destruct (Hall _ Hl) as (d0 & Hin & Hd0).
          exists d0. split; [right; exact Hin|exact Hd0]. }
    destruct (Re.group g "run") as [s|]; [|discriminate].
    destruct (match periods with Some ps => _ | None => _ end);
      [discriminate| |].
    + unfold record_run in H.
      destruct (Dict.get runs (py_int s)) as [stored|].
      * destruct (edition stored <? edition_of g);
          refine (Step _ _ [editions_warning d] eq_refl _ H);
          intros line [<-|[]]; reflexivity.
      * refine (Step _ _ [] _ _ H); [symmetry; apply app_nil_r|intros ? []].
    + refine (Step _ _ [] _ _ H); [symmetry; apply app_nil_r|intros ? []].
  - destruct (IH _ _ _ _ H) as (added & -> & Hinv & Hall).
    exists (invalid_name_warning d :: added). unfold say.
    rewrite <- app_assoc. split; [reflexivity|]. split.
    + intros d0 [<-|Hin] Hn; [left; reflexivity|right; auto].
    + intros line [<-|Hl].
      * exists d. split; [left; reflexivity|]. left. auto.
      * destruct (Hall _ Hl) as (d0 & Hin & Hd0).
        exists d0. split; [right; exact Hin|exact Hd0].
Qed.

(** X9: when a DATA sample is resolved, every candidate directory whose
    name does not match the grammar is named in a warning and left out,
    without ending the resolution, and nothing is printed but such
    warnings and warnings about multiple editions, the latter naming
    directories that do match. *)
Theorem data_sample_log w sample periods d log :
  get_sample w sample periods = (Return (Some d), log) ->
  datatype d = 0 ->
  (forall dr, In dr (actualdirs w sample) ->
     Re.rmatch datapattern (Path.basename dr) = None ->
     In (invalid_name_warning dr) log) /\
  (forall line, In line log ->
     exists dr, In dr (actualdirs w sample) /\
       ((line = invalid_name_warning dr /\
         Re.rmatch datapattern (Path.basename dr) = None) \/
        (line = editions_warning dr /\
         is_Some (Re.rmatch datapattern (Path.basename dr))))).
Proof.
  unfold get_sample, actualdirs. intros H Hd.
  destruct (negb _); [discriminate|].
  destruct (negb _); [discriminate|].
  destruct (parse_metadata _ _) as [[[[dt cn] wt] tn]|]; [|discriminate].
  destruct (classes !! cn) as [ct|]; [|discriminate].
  destruct (types !! dt) as [code|]; [|discriminate].
  rewrite types_DATA in H. set (dirs := List.filter _ _) in *.
  destruct (code =? 0) eqn:Ecode.
  2:{ injection H as <- _. cbn [datatype] in Hd. subst code. discriminate. }
  destruct (data_loop periods dirs [] []) as [runs l| |] eqn:Hl;
    try discriminate.
  injection H as _ <-.
  destruct (data_loop_log _ _ _ _ _ _ Hl) as (added & -> & Hinv & Hall).
  cbn [app]. auto.
Qed.

Lemma data_sample_log_witness :
  let w := Example.fs [ ("/data/samp", ["meta.xml"; "junk"]);
                        ("/data/samp/junk", ["x.root"]) ]
             ["/data/samp/meta.xml"]
             (Example.meta "DATA" "signal" "1" "tau") Example.no_other in
  (forall dr, In dr (actualdirs w "samp") ->
     Re.rmatch datapattern (Path.basename dr) = None ->
     In (invalid_name_warning dr)
        ["Warning: directory junk is not a valid dataset name!"]) /\
  (forall line,
     In line ["Warning: directory junk is not a valid dataset name!"] ->
     exists dr, In dr (actualdirs w "samp") /\
       ((line = invalid_name_warning dr /\
         Re.rmatch datapattern (Path.basename dr) = None) \/
        (line = editions_warning dr /\
         is_Some (Re.rmatch datapattern (Path.basename dr))))).
Proof.
  intros w.
  refine (data_sample_log w "samp" None
            (mkDataset "samp" 0 1 "tau"
               (S754_finite false 4503599627370496 (-52)) [])
            ["Warning: directory junk is not a valid dataset name!"] _ _);
    [vm_compute; reflexivity|reflexivity].
Defined.

(** ** What the groups of a match hold *)

Section Captures.
Import Re.

Lemma captured_span p u v g st1 :
  rest st1 = v -> pos st1 = (p + length u)%nat ->
  captured (State p (u ++ v)%list g) st1 = string_of_list_ascii u.
Proof.
  intros _ Hp. unfold captured. cbn [pos rest]. rewrite Hp.
  replace (p + length u - p)%nat with (length u) by lia.
  rewrite firstn_app, Nat.sub_diag, firstn_all. cbn [firstn].
  rewrite app_nil_r. reflexivity.
Qed.

(** Every group a run adds holds a text that its body can consume. *)
Lemma run_captures (P : string -> chars -> Prop) : forall r,
  (forall n r1, In (n, r1) (groups_of r) ->
     forall b u v, den r1 b u v -> P n u) ->
  forall st st', In st' (run r st) ->
  exists new, groups st' = (new ++ groups st)%list /\
              Forall (fun kv => P (fst kv) (txt (snd kv))) new.
Proof.
  induction r as [|a|a|r1 IH1 r2 IH2|r1 IH1 r2 IH2|r1 IH1|n r1 IH1| |];
    cbn [run groups_of]; intros HP st st' Hin.
  - destruct Hin as [<-|[]]. exists []. auto.
  - destruct (rest st) as [|c t]; [contradiction|].
    destruct (atom_ok a c); [|contradiction].
    destruct Hin as [<-|[]]. exists []. auto.
  - apply plus_run_sound in Hin as (u & _ & _ & _ & _ & ->). exists []. auto.
  - apply in_flat_map in Hin as (st1 & H1 & H2).
    destruct (IH1 (fun n r0 Hn => HP n r0 (in_or_app _ _ _ (or_introl Hn)))
                _ _ H1) as (n1 & E1 & F1).
    destruct (IH2 (fun n r0 Hn => HP n r0 (in_or_app _ _ _ (or_intror Hn)))
                _ _ H2) as (n2 & E2 & F2).
    exists (n2 ++ n1)%list. rewrite E2, E1, app_assoc.
    split; [reflexivity|]. apply Forall_app; auto.
  - apply in_app_or in Hin as [Hin|Hin].
    + apply (IH1 (fun n r0 Hn => HP n r0 (in_or_app _ _ _ (or_introl Hn)))
               _ _ Hin).
    + apply (IH2 (fun n r0 Hn => HP n r0 (in_or_app _ _ _ (or_intror Hn)))
               _ _ Hin).
  - apply in_app_or in Hin as [Hin|Hin].
    + apply (IH1 HP _ _ Hin).
    + destruct Hin as [<-|[]]. exists []. auto.
  - apply in_map_iff in Hin as (st1 & <- & H1). cbn [groups].
    destruct (IH1 (fun k r0 Hk => HP k r0 (or_intror Hk)) _ _ H1)
      as (new & E & F).
    exists ((n, captured st st1) :: new). rewrite E.
    split; [reflexivity|]. constructor; [|exact F]. cbn [fst snd].
    destruct (run_sound _ _ _ H1) as (u & Hr & Hp & Hd).
    destruct st as [p w0 g0]. cbn [rest pos] in Hr, Hp. subst w0.
    rewrite (captured_span p u (rest st1) g0 st1 eq_refl Hp).
    unfold txt. rewrite list_ascii_of_string_of_list_ascii.
    eapply (HP n r1 (or_introl eq_refl)), Hd.
  - destruct (pos st =? 0)%nat; [|contradiction].
    destruct Hin as [<-|[]]. exists []. auto.
  - destruct (at_eol (rest st)); [|contradiction].
    destruct Hin as [<-|[]]. exists []. auto.
Qed.

Lemma group_found : forall g n v, group g n = Some v -> In (n, v) g.
Proof.
  induction g as [|[k x] g IH]; cbn [group]; intros n v H; [discriminate|].
  destruct (String.eqb_spec k n) as [->|_].
  - injection H as <-. left. reflexivity.
  - right. apply IH, H.
Qed.

Lemma rmatch_captures (P : string -> chars -> Prop) r s g n v :
  (forall k r1, In (k, r1) (groups_of r) ->
     forall b u w, den r1 b u w -> P k u) ->
  rmatch r s = Some g -> group g n = Some v -> P n (txt v).
Proof.
  unfold rmatch. intros HP Hm Hg.
  destruct (run r _) as [|st l] eqn:E; [discriminate|].
  injection Hm as <-.
  assert (Hin : In st (run r (State 0 (list_ascii_of_string s) [])))
    by (rewrite E; left; reflexivity).
  destruct (run_captures P r HP _ _ Hin) as (new & Hn & F).
  cbn [groups] in Hn. rewrite app_nil_r in Hn. rewrite Hn in Hg.
  apply group_found in Hg. rewrite List.Forall_forall in F.
  apply (F _ Hg).
Qed.

End Captures.

Lemma digits_nonneg : forall u acc,
  0 <= acc -> 0 <= fold_left (fun a c => 10 * a + digit_val c) u acc.
Proof.
  induction u as [|c u IH]; intros acc Ha; cbn [fold_left]; [exact Ha|].
  apply IH. unfold digit_val. lia.
Qed.

(** X11: on every match of [datapattern] the [run] group is set and is a
    non-empty string of digits, and so is the [edition] group when it is
    set; hence [int] never fails on them, and the run number and the
    edition are not negative. *)
Theorem datapattern_groups s g :
  Re.rmatch datapattern s = Some g ->
  (exists r, Re.group g "run" = Some r /\ some is_digit (txt r) /\
             0 <= py_int r) /\
  (forall e, Re.group g "edition" = Some e -> some is_digit (txt e)) /\
  0 <= edition_of g.
Proof.
  intros Hm.
  set (P := fun (n : string) (u : chars) =>
              (n = "run" \/ n = "edition") -> some is_digit u).
  assert (HP : forall k r1, In (k, r1) (groups_of datapattern) ->
                 forall b u w, den r1 b u w -> P k u).
  { intros k r1 Hin b u w Hd [-> | ->]; cbn in Hin;
      repeat (destruct Hin as [[= <-]|Hin]; try discriminate);
      try destruct Hin;
      apply (some_atom _ _ _ ok_digits), Hd. }
  split; [|split].
  - destruct (datapattern_sets_run _ _ Hm) as [r Hr].
    exists r. split; [exact Hr|]. split.
    + apply (rmatch_captures P _ _ _ _ _ HP Hm Hr). auto.
    + apply digits_nonneg. lia.
  - intros e He. apply (rmatch_captures P _ _ _ _ _ HP Hm He). auto.
  - unfold edition_of. destruct (Re.group g "edition") as [[|c t]|]; try lia.
    apply digits_nonneg. lia.
Qed.

Lemma datapattern_groups_witness :
  let g := [("size", "SMALL"); ("edition", "2"); ("version", "01-01");
            ("tag", "r1"); ("stream", "physics"); ("run", "00153000");
            ("group", "perf-tau"); ("year", "10")] in
  (exists r, Re.group g "run" = Some r /\ some is_digit (txt r) /\
             0 <= py_int r) /\
  (forall e, Re.group g "edition" = Some e -> some is_digit (txt e)) /\
  0 <= edition_of g.
Proof.
  intros g. apply (datapattern_groups Example.run153000_ed2).
  vm_compute. reflexivity.
Defined.

(** X12: the [name] group of [mcpattern] is empty on every match. *)
Theorem mcpattern_name_empty s g :
  Re.rmatch mcpattern s = Some g -> Re.group g "name" = Some "".
Proof.
  intros Hm.
  destruct (rmatch_binds mcpattern s g "name" Hm) as [v Hv];
    [vm_compute; tauto|].
  rewrite Hv. f_equal.
  assert (H : txt v = []).
  { refine (rmatch_captures (fun n u => n = "name" -> u = []) _ _ _ _ _ _
              Hm Hv eq_refl).
    intros k r1 Hin b u w Hd ->. cbn in Hin.
    repeat (destruct Hin as [[= <-]|Hin]; try discriminate);
      try destruct Hin.
    exact Hd. }
  destruct v; [reflexivity|discriminate].
Qed.

Lemma mcpattern_name_empty_witness :
  Re.group [("suffix", "e1.d3pd"); ("tag", "t2"); ("name", ""); ("run", "107000");
            ("energy", "7"); ("prodyear", "10"); ("year", "10")] "name" = Some "".
Proof.
  apply (mcpattern_name_empty "group10.perf-tau.mc10_7TeV.107000..t2.e1.d3pd").
  vm_compute. reflexivity.
Defined.

(** ** The simulated-data grammar *)

Section McPattern.
Import Re.

Ltac open_piece H :=
  let u1 := fresh "u" in
  let u2 := fresh "w" in
  let H1 := fresh "P" in
  cbn [den seqs] in H; destruct H as (u1 & u2 & -> & H1 & H).

Lemma mcpattern_den u v :
  den mcpattern true u v -> mc_name_shape (u ++ v)%list.
Proof.
  unfold mcpattern. intros H.
  do 20 (open_piece H). cbn [den seqs] in H. subst.
  destruct P as [-> _].
  apply den_lit in P0 as ->. apply den_lit in P3 as ->.
  apply den_lit in P5 as ->. apply den_lit in P7 as ->.
  apply den_lit in P9 as ->.
  apply (some_atom _ _ _ ok_digits) in P1, P6, P8, P11.
  apply (some_atom _ _ _ ok_not_dot) in P15.
  apply (some_atom _ _ _ ok_dot) in P17.
  destruct P2 as (c1 & -> & Hc1). destruct P4 as (c2 & -> & Hc2).
  destruct P10 as (c3 & -> & Hc3). destruct P12 as (c4 & -> & Hc4).
  destruct P14 as (c5 & -> & Hc5). destruct P16 as (c6 & -> & Hc6).
  destruct P18 as [-> He]. cbn [app] in He. apply at_eol_cases in He.
  exists u1, u6, u8, u11, u15, u17, v, c1, c2, c3, c4, c5, c6.
  split; [repeat (simpl; rewrite <- ?app_assoc); rewrite ?app_nil_r; reflexivity|].
  do 6 (split; [assumption|]).
  split; [repeat constructor; assumption|exact He].
Qed.

Ltac mc_piece x :=
  cbn [den seqs]; eexists x, _; split; [reflexivity|split].

Lemma mc_shape_den s :
  mc_name_shape s ->
  exists u v, s = (u ++ v)%list /\ den mcpattern true u v.
Proof.
  intros (year & prodyear & energy & rn & tag & suffix & tail &
          c1 & c2 & c3 & c4 & c5 & c6 & -> & Hy & Hp & He & Hr & Ht & Hs &
          Hc & Htail).
  inversion Hc as [|? ? Hc1 Hc']; subst.
  inversion Hc' as [|? ? Hc2 Hc'']; subst.
  inversion Hc'' as [|? ? Hc3 Hc3']; subst.
  inversion Hc3' as [|? ? Hc4 Hc4']; subst.
  inversion Hc4' as [|? ? Hc5 Hc5']; subst.
  inversion Hc5' as [|? ? Hc6 _]; subst.
  exists ([] ++ txt "group" ++ year ++ [c1] ++ txt "perf-tau" ++ [c2] ++
          txt "mc" ++ prodyear ++ txt "_" ++ energy ++ txt "TeV" ++ [c3] ++
          rn ++ [c4] ++ [] ++ [c5] ++ tag ++ [c6] ++ suffix ++ [] ++ [])%list,
         tail.
  split; [repeat (simpl; rewrite <- ?app_assoc); rewrite ?app_nil_r; reflexivity|].
  unfold mcpattern.
  mc_piece (@nil ascii); [split; reflexivity|].
  mc_piece (txt "group"); [apply den_lit; reflexivity|].
  mc_piece year; [apply (some_atom _ _ _ ok_digits), Hy|].
  mc_piece [c1]; [exists c1; auto|].
  mc_piece (txt "perf-tau"); [apply den_lit; reflexivity|].
  mc_piece [c2]; [exists c2; auto|].
  mc_piece (txt "mc"); [apply den_lit; reflexivity|].
  mc_piece prodyear; [apply (some_atom _ _ _ ok_digits), Hp|].
  mc_piece (txt "_"); [apply den_lit; reflexivity|].
  mc_piece energy; [apply (some_atom _ _ _ ok_digits), He|].
  mc_piece (txt "TeV"); [apply den_lit; reflexivity|].
  mc_piece [c3]; [exists c3; auto|].
  mc_piece rn; [apply (some_atom _ _ _ ok_digits), Hr|].
  mc_piece [c4]; [exists c4; auto|].
  mc_piece (@nil ascii); [reflexivity|].
  mc_piece [c5]; [exists c5; auto|].
  mc_piece tag; [apply (some_atom _ _ _ ok_not_dot), Ht|].
  mc_piece [c6]; [exists c6; auto|].
  mc_piece suffix; [apply (some_atom _ _ _ ok_dot), Hs|].
  mc_piece (@nil ascii); [|cbn [den seqs]; reflexivity].
  split; [reflexivity|]. apply at_eol_cases. exact Htail.
Qed.

End McPattern.

(** X13: a name is accepted by [mcpattern] if and only if it reads
    group<year>?perf-tau?mc<prodyear>_<energy>TeV?<run>??<tag>?<suffix>,
    where each ? is any one character other than a newline, the two
    side by side stand around the empty name group, year, prodyear,
    energy and run are non-empty digit strings, tag is non-empty without
    dots, suffix is non-empty without newline, and nothing follows but
    possibly one final newline. *)
Theorem mcpattern_accepts (basename : string) :
  is_Some (Re.rmatch mcpattern basename) <-> mc_name_shape (txt basename).
Proof.
  rewrite rmatch_accepts. split.
  - intros (u & v & E & H). unfold txt. rewrite E. apply mcpattern_den, H.
  - apply mc_shape_den.
Qed.

(** ** Names written with dots *)

Section FirstSuccess.
Import Re.

Lemma starts_seq r1 r2 st x y :
  starts r1 st x -> starts r2 x y -> starts (Seq r1 r2) st y.
Proof.
  intros [l1 H1] [l2 H2]. unfold starts. cbn [run]. rewrite H1.
  cbn [flat_map]. rewrite H2. eexists. reflexivity.
Qed.

Lemma starts_atom a c p v g :
  atom_ok a c = true ->
  starts (Atom a) (State p (c :: v) g) (State (S p) v g).
Proof. intros H. unfold starts. cbn [run rest pos groups]. rewrite H. eauto. Qed.

Lemma starts_lit : forall s p v g,
  starts (lit s) (State p (txt s ++ v)%list g)
                 (State (p + length (txt s)) v g).
Proof.
  induction s as [|c t IH]; intros p v g.
  - unfold starts. cbn. rewrite Nat.add_0_r. eauto.
  - cbn [lit]. eapply starts_seq.
    + apply (starts_atom (Chr c) c). apply Ascii.eqb_refl.
    + replace (p + length (txt (String c t)))%nat
        with (S p + length (txt t))%nat
        by (unfold txt; cbn [list_ascii_of_string length]; lia).
      apply IH.
Qed.

Lemma plus_run_stops a v p g : stops a v -> plus_run a p v g = [].
Proof. destruct v as [|c v]; cbn; [reflexivity|]. intros ->. reflexivity. Qed.

Lemma starts_plus a : forall u v p g,
  u <> [] -> Forall (fun c => atom_ok a c = true) u -> stops a v ->
  starts (Plus a) (State p (u ++ v)%list g) (State (p + length u) v g).
Proof.
  unfold starts. cbn [run rest pos groups].
  induction u as [|c u IH]; intros v p g Hne Hall Hstop; [congruence|].
  inversion Hall as [|? ? Hc Hall']; subst.
  cbn [app plus_run]. rewrite Hc. destruct u as [|c' u'].
  - cbn [app]. rewrite (plus_run_stops a v (S p) g Hstop).
    exists []. cbn. do 2 f_equal. lia.
  - destruct (IH v (S p) g) as [l Hl]; [discriminate|assumption|assumption|].
    rewrite Hl. eexists. cbn [app]. do 2 f_equal. cbn [length]. lia.
Qed.

Lemma starts_group n r p u v g g' :
  starts r (State p (u ++ v)%list g) (State (p + length u) v g') ->
  starts (Group n r) (State p (u ++ v)%list g)
         (State (p + length u) v ((n, string_of_list_ascii u) :: g')).
Proof.
  intros [l H]. unfold starts. cbn [run]. rewrite H. cbn [map pos rest groups].
  rewrite (captured_span p u v g (State (p + length u) v g') eq_refl eq_refl).
  eauto.
Qed.

Lemma starts_some (u : chars) P a n p v g :
  (forall c, atom_ok a c = P c) -> some P u -> stops a v ->
  starts (Group n (Plus a)) (State p (u ++ v)%list g)
         (State (p + length u) v ((n, string_of_list_ascii u) :: g)).
Proof.
  intros E Hu Hstop. apply starts_group.
  apply (some_atom a P u E) in Hu as [Hne Hall].
  apply starts_plus; assumption.
Qed.

Lemma starts_opt r st x : starts r st x -> starts (Opt r) st x.
Proof. intros [l H]. unfold starts. cbn [run]. rewrite H. eauto. Qed.

Lemma starts_opt_skip r st : run r st = [] -> starts (Opt r) st st.
Proof. intros H. unfold starts. cbn [run]. rewrite H. eauto. Qed.

Lemma starts_alt_left r1 r2 st x : starts r1 st x -> starts (Alt r1 r2) st x.
Proof. intros [l H]. unfold starts. cbn [run]. rewrite H. eauto. Qed.

Lemma starts_alt_right r1 r2 st x :
  run r1 st = [] -> starts r2 st x -> starts (Alt r1 r2) st x.
Proof. intros H1 [l H]. unfold starts. cbn [run]. rewrite H1, H. eauto. Qed.

Lemma starts_eol p g : starts Eol (State p [] g) (State p [] g).
Proof. unfold starts. cbn. eauto. Qed.

Lemma starts_bol w0 g : starts Bol (State 0 w0 g) (State 0 w0 g).
Proof. unfold starts. cbn [run pos Nat.eqb]. eauto. Qed.

Lemma starts_eps st : starts Eps st st.
Proof. unfold starts. cbn. eauto. Qed.

Lemma starts_datapattern year grp rn stream tag version ed size :
  some is_digit year -> some not_dot_char grp -> some is_digit rn ->
  some not_dot_char stream -> some not_dot_char tag ->
  some version_char version ->
  (forall e, ed = Some e -> some is_digit e) ->
  size = "SMALL" \/ size = "MEDIUM" ->
  exists n,
    starts datapattern
      (State 0 (dotted_name year grp rn stream tag version ed size) [])
      (State n [] (dotted_groups year grp rn stream tag version ed size)).
Proof.
  intros Hy Hg Hr Hs Ht Hv He Hsize.
  assert (Hed : forall e, ed = Some e -> some is_digit e) by exact He.
  destruct ed as [e|]; destruct Hsize as [-> | ->]; eexists;
    unfold datapattern, dotted_name, dotted_groups; cbn [seqs app];
    (eapply starts_seq; [apply starts_bol|]);
    (eapply starts_seq; [apply (starts_lit "group")|]);
    (eapply starts_seq;
       [apply (starts_some year _ _ _ _ _ _ ok_digits Hy); reflexivity|]);
    (eapply starts_seq; [apply starts_atom; reflexivity|]);
    (eapply starts_seq;
       [apply (starts_some grp _ _ _ _ _ _ ok_not_dot Hg); reflexivity|]);
    (eapply starts_seq; [apply starts_atom; reflexivity|]);
    (eapply starts_seq;
       [apply (starts_some rn _ _ _ _ _ _ ok_digits Hr); reflexivity|]);
    (eapply starts_seq; [apply starts_atom; reflexivity|]);
    (eapply starts_seq;
       [apply (starts_some stream _ _ _ _ _ _ ok_not_dot Hs); reflexivity|]);
    (eapply starts_seq; [apply starts_atom; reflexivity|]);
    (eapply starts_seq;
       [apply (starts_some tag _ _ _ _ _ _ ok_not_dot Ht); reflexivity|]);
    (eapply starts_seq; [apply starts_atom; reflexivity|]);
    (eapply starts_seq;
       [apply (starts_some version _ _ _ _ _ _ ok_version Hv); reflexivity|]);
    (eapply starts_seq; [apply starts_atom; reflexivity|]);
    (eapply starts_seq; [apply (starts_lit "D3PD")|]).
  - eapply starts_seq.
    { apply starts_opt. eapply starts_seq; [apply starts_atom; reflexivity|].
      apply (starts_some e _ _ _ _ _ _ ok_digits (Hed e eq_refl)). reflexivity. }
    eapply starts_seq; [apply (starts_lit "_StreamD3PD_Tau")|].
    eapply starts_seq; [|apply starts_eps].
    apply (starts_group "size" _ _ (txt "SMALL") []). apply starts_alt_left.
    eapply starts_seq; [apply (starts_lit "SMALL" _ [])|apply starts_eol].
  - eapply starts_seq.
    { apply starts_opt. eapply starts_seq; [apply starts_atom; reflexivity|].
      apply (starts_some e _ _ _ _ _ _ ok_digits (Hed e eq_refl)). reflexivity. }
    eapply starts_seq; [apply (starts_lit "_StreamD3PD_Tau")|].
    eapply starts_seq; [|apply starts_eps].
    apply (starts_group "size" _ _ (txt "MEDIUM") []).
    apply starts_alt_right; [reflexivity|].
    eapply starts_seq; [apply (starts_lit "MEDIUM" _ [])|apply starts_eol].
  - eapply starts_seq; [apply starts_opt_skip; reflexivity|].
    eapply starts_seq; [apply (starts_lit "_StreamD3PD_Tau")|].
    eapply starts_seq; [|apply starts_eps].
    apply (starts_group "size" _ _ (txt "SMALL") []). apply starts_alt_left.
    eapply starts_seq; [apply (starts_lit "SMALL" _ [])|apply starts_eol].
  - eapply starts_seq; [apply starts_opt_skip; reflexivity|].
    eapply starts_seq; [apply (starts_lit "_StreamD3PD_Tau")|].
    eapply starts_seq; [|apply starts_eps].
    apply (starts_group "size" _ _ (txt "MEDIUM") []).
    apply starts_alt_right; [reflexivity|].
    eapply starts_seq; [apply (starts_lit "MEDIUM" _ [])|apply starts_eol].
Qed.

End FirstSuccess.

(** X14: on a name written with dots, that is group<year>.<group>.<run>.
    <stream>.<tag>.<version>.D3PD, an optional .<edition>, _StreamD3PD_Tau
    and SMALL or MEDIUM, with the fields in their character classes,
    [re.match] succeeds and its groups are the fields as written: the
    run number and the edition taken by the loop are those of the
    name. *)
Theorem dotted_name_parse year grp rn stream tag version ed size :
  some is_digit year -> some not_dot_char grp -> some is_digit rn ->
  some not_dot_char stream -> some not_dot_char tag ->
  some version_char version ->
  (forall e, ed = Some e -> some is_digit e) ->
  size = "SMALL" \/ size = "MEDIUM" ->
  let g := dotted_groups year grp rn stream tag version ed size in
  Re.rmatch datapattern
    (string_of_list_ascii
       (dotted_name year grp rn stream tag version ed size)) = Some g /\
  Re.group g "run" = Some (string_of_list_ascii rn) /\
  py_int (string_of_list_ascii rn) = int_of_digits rn /\
  edition_of g = match ed with Some e => int_of_digits e | None => 0 end.
Proof.
  intros Hy Hg Hr Hs Ht Hv He Hsize g.
  destruct (starts_datapattern year grp rn stream tag version ed size
              Hy Hg Hr Hs Ht Hv He Hsize) as (n & l & Hrun).
  split; [|split; [|split]].
  - unfold Re.rmatch. rewrite list_ascii_of_string_of_list_ascii, Hrun.
    reflexivity.
  - subst g. unfold dotted_groups. destruct ed; reflexivity.
  - unfold py_int. rewrite list_ascii_of_string_of_list_ascii. reflexivity.
  - subst g. unfold dotted_groups, edition_of. destruct ed as [e|].
    + cbn [app Re.group String.eqb Ascii.eqb Bool.eqb].
      destruct (He e eq_refl) as [Hne _].
      destruct e as [|c e']; [congruence|].
      cbn [string_of_list_ascii]. unfold py_int.
      cbn [list_ascii_of_string].
      rewrite list_ascii_of_string_of_list_ascii. reflexivity.
    + reflexivity.
Qed.

Lemma dotted_name_parse_witness :
  let g := dotted_groups (txt "10") (txt "perf-tau") (txt "00153000")
             (txt "physics") (txt "r1") (txt "01-01") (Some (txt "2"))
             "SMALL" in
  Re.rmatch datapattern
    (string_of_list_ascii
       (dotted_name (txt "10") (txt "perf-tau") (txt "00153000")
          (txt "physics") (txt "r1") (txt "01-01") (Some (txt "2"))
          "SMALL")) = Some g /\
  Re.group g "run" = Some (string_of_list_ascii (txt "00153000")) /\
  py_int (string_of_list_ascii (txt "00153000")) =
    int_of_digits (txt "00153000") /\
  edition_of g = int_of_digits (txt "2").
Proof.
  apply (dotted_name_parse (txt "10") (txt "perf-tau") (txt "00153000")
           (txt "physics") (txt "r1") (txt "01-01") (Some (txt "2")) "SMALL");
    try (split; [discriminate|repeat constructor]).
  - intros e [= <-]. split; [discriminate|repeat constructor].
  - left. reflexivity.
Defined.

(** ** The candidate directories *)

Lemma basename_join a n :
  n <> "" -> no_slash n = true -> Path.basename (Path.join a n) = n.
Proof.
  intros Hn Hs. unfold Path.basename.
  rewrite (join_lead a n Hn Hs), (cut_app _ _ (lead_ends a) Hs). reflexivity.
Qed.

Lemma candidate_dirs_listed w sample :
  sane w ->
  isdir w (Path.join (dataroot w) sample) = true ->
  Glob.has_magic (sample_root w sample) = false ->
  actualdirs w sample =
    map (Path.join (sample_root w sample))
        (listed_dirs w (sample_root w sample)).
Proof.
  intros [Hplain Hempty] Hbase Hroot. unfold actualdirs.
  assert (Hb : Path.join (dataroot w) sample <> "")
    by (intros E; rewrite E in Hbase; congruence).
  rewrite (glob_pattern w _ "*" _ (sample_root_split w sample)
             (sample_root_not_empty w sample Hb) Hroot);
    [|discriminate|reflexivity|reflexivity|reflexivity].
  rewrite filter_map_swap, !filter_twice. f_equal.
  unfold listed_dirs. apply filter_ext. intros n.
  rewrite fnmatch_star. reflexivity.
Qed.

(** X15: on a path without wildcard characters the candidate directories
    are the entries of the sample root that are directories and have no
    leading dot, in the order of enumeration, each joined to the root;
    the dataset name that the loop reads off a candidate is the entry
    name itself. *)
Theorem candidate_directories w sample :
  sane w ->
  isdir w (Path.join (dataroot w) sample) = true ->
  Glob.has_magic (sample_root w sample) = false ->
  actualdirs w sample =
    map (Path.join (sample_root w sample))
        (listed_dirs w (sample_root w sample)) /\
  forall n, In n (listed_dirs w (sample_root w sample)) ->
            Path.basename (Path.join (sample_root w sample) n) = n.
Proof.
  intros Hsane Hbase Hroot. split.
  - apply candidate_dirs_listed; assumption.
  - intros n Hin. unfold listed_dirs in Hin. apply filter_In in Hin as [Hin _].
    destruct (plain_names w Hsane _ _ Hin) as [Hne Hns].
    apply basename_join; assumption.
Qed.

Lemma candidate_directories_witness :
  actualdirs Example4.mc_plain "samp" =
    map (Path.join (sample_root Example4.mc_plain "samp"))
        (listed_dirs Example4.mc_plain (sample_root Example4.mc_plain "samp")) /\
  forall n,
    In n (listed_dirs Example4.mc_plain (sample_root Example4.mc_plain "samp")) ->
    Path.basename (Path.join (sample_root Example4.mc_plain "samp") n) = n.
Proof.
  apply (candidate_directories Example4.mc_plain "samp" mc_plain_sane);
    reflexivity.
Defined.

(** ** Where the files come from *)

(** X16: on paths without wildcard characters, every file of a resolved
    sample, DATA or MC, is an entry of a candidate directory, has "root"
    in its name and no leading dot; no other path is ever returned. *)
Theorem files_from_candidates w sample periods d log :
  sane w ->
  Glob.has_magic (sample_root w sample) = false ->
  (forall n, In n (listed_dirs w (sample_root w sample)) ->
             Glob.has_magic n = false) ->
  get_sample w sample periods = (Return (Some d), log) ->
  forall f, In f (files d) ->
    exists n e,
      In n (listed_dirs w (sample_root w sample)) /\
      In e (root_entries w (Path.join (sample_root w sample) n)) /\
      f = Path.join (Path.join (sample_root w sample) n) e.
Proof.
  intros Hsane Hroot Hdirs H f Hf.
  assert (Hbase : isdir w (Path.join (dataroot w) sample) = true).
  { unfold get_sample in H.
    destruct (isdir w _); [reflexivity|discriminate]. }
  pose proof (candidate_dirs_listed w sample Hsane Hbase Hroot) as Hcand.
  assert (Hglob : forall dr, In dr (actualdirs w sample) ->
            In f (GlobFs.glob w (Path.join dr "*root*")) ->
            exists n e,
              In n (listed_dirs w (sample_root w sample)) /\
              In e (root_entries w (Path.join (sample_root w sample) n)) /\
              f = Path.join (Path.join (sample_root w sample) n) e).
  { intros dr Hdr Hin. rewrite Hcand in Hdr.
    apply in_map_iff in Hdr as (n & <- & Hn).
    rewrite (glob_root_entries w _ n Hsane Hroot) in Hin.
    - apply in_map_iff in Hin as (e & <- & He). exists n, e. auto.
    - unfold listed_dirs in Hn. apply filter_In in Hn. tauto.
    - apply Hdirs, Hn. }
  unfold get_sample in H. fold (actualdirs w sample) in H.
  destruct (negb _); [discriminate|].
  destruct (negb _); [discriminate|].
  destruct (parse_metadata _ _) as [[[[dt cn] wt] tn]|]; [|discriminate].
  destruct (classes !! cn) as [ct|]; [|discriminate].
  destruct (types !! dt) as [code|]; [|discriminate].
  rewrite types_DATA in H.
  destruct (code =? 0).
  - destruct (data_loop periods (actualdirs w sample) [] [])
      as [runs l| |] eqn:Hl; try discriminate.
    injection H as <- _. cbn [files] in Hf.
    apply in_flat_map in Hf as ([r e] & Hre & Hin). cbn [snd] in Hin.
    apply items_get in Hre.
    destruct (data_loop_invariant _ _ _ _ _ _ Hl r e Hre)
      as [[Hr _]|(b & a & Hd & _)].
    + discriminate Hr.
    + apply (Hglob (dir e)); [|exact Hin].
      rewrite Hd. apply in_or_app. right. left. reflexivity.
  - injection H as <- _. cbn [files] in Hf.
    apply in_flat_map in Hf as (dr & Hdr & Hin). eauto.
Qed.

Lemma files_from_candidates_witness :
  exists n e,
    In n (listed_dirs Example4.mc_plain (sample_root Example4.mc_plain "samp")) /\
    In e (root_entries Example4.mc_plain
            (Path.join (sample_root Example4.mc_plain "samp") n)) /\
    "/data/samp/d1/a.root.1" =
      Path.join (Path.join (sample_root Example4.mc_plain "samp") n) e.
Proof.
  refine (files_from_candidates Example4.mc_plain "samp" None
            (mkDataset "samp" 1 0 "tau"
               (S754_finite false 4503599627370496 (-52))
               ["/data/samp/d1/a.root.1"; "/data/samp/d1/c_root_x"])
            [] mc_plain_sane _ _ _ "/data/samp/d1/a.root.1" _).
  - reflexivity.
  - intros n Hin. vm_compute in Hin. destruct Hin as [<-|[]]. reflexivity.
  - vm_compute. reflexivity.
  - simpl. auto.
Defined.
